(** * GIFME: a folder-of-videos to GIF converter (src/main.py)

    A shallow embedding of [VideoConverterWorker] and [VideoConverterApp].

    - [Py]      the string operations of Python the source calls
                ([str.lower], [str.endswith], slicing, [str.rfind], [str(int)]);
    - [OsPath]  [os.path.splitext] and [os.path.join] (posixpath);
    - [Worker]  [VideoConverterWorker.run] and [_is_ffmpeg_installed], as a
                function from the outside world (what the subprocesses and the
                directory listing answer) to the trace of what the worker does;
    - [Shell]   the slots of [VideoConverterApp] as functions on its state;
    - [System]  the worker thread and the shell running side by side, the
                signals queued from the one to the other;
    - [Scenarios]  a few concrete worlds.

    The properties follow: facts about the strings and paths ([PyFacts],
    [OsPathFacts]), about the selection of candidates and the shape of a run
    ([Candidates], [RunFacts], [SecondPass]), and the statements about names
    ([NamingSpec]), runs ([RunSpec]) and the shell ([ShellSpec]).

    A call of [subprocess.run(..., capture_output=True, text=True,
    check=True)] returns, raises one of the two exceptions the source
    handles ([CalledProcessError], [FileNotFoundError]), or raises one it
    does not handle ([PermissionError] or another [OSError] when the program
    cannot be started, [UnicodeDecodeError] when its output is not text);
    [os.listdir] returns the entries or raises. An exception that is not
    handled leaves [run] without a signal. [os.path] is [posixpath].

    File names and messages are [string]s of 8-bit characters; [str.lower]
    is modelled on the ASCII letters, every other character is left as it
    is. Python also lowers a few characters outside ASCII to ASCII letters
    (U+212A KELVIN SIGN to k): names with such characters are outside the
    model. *)

From Stdlib Require Import String Ascii List ZArith Lia Bool Arith.
From Stdlib Require Import DecimalString.
Import ListNotations.

Local Open Scope string_scope.
Local Open Scope list_scope.

(* ================================================================= *)
(** ** Python strings *)

Module Py.

(** [c.lower()] for one character. *)
Definition lower_char (c : ascii) : ascii :=
  if (("A" <=? c)%char && (c <=? "Z")%char)%bool
  then ascii_of_nat (nat_of_ascii c + 32)
  else c.

(** [s.lower()] *)
Fixpoint lower (s : string) : string :=
  match s with
  | EmptyString => EmptyString
  | String c s' => String (lower_char c) (lower s')
  end.

(** [s[:n]] for [0 <= n] *)
Fixpoint take (n : nat) (s : string) : string :=
  match n, s with
  | O, _ => EmptyString
  | S _, EmptyString => EmptyString
  | S n', String c s' => String c (take n' s')
  end.

(** [s[n:]] for [0 <= n] *)
Fixpoint drop (n : nat) (s : string) : string :=
  match n, s with
  | O, _ => s
  | S _, EmptyString => EmptyString
  | S n', String _ s' => drop n' s'
  end.

(** A slice bound as Python normalises it: a negative bound counts from the
    end, and the result is clamped to [0 .. len]. *)
Definition bound (len : nat) (k : Z) : nat :=
  let k' := if (k <? 0)%Z then (k + Z.of_nat len)%Z else k in
  Z.to_nat (Z.min (Z.max 0 k') (Z.of_nat len)).

(** [s[:k]] *)
Definition slice_to (s : string) (k : Z) : string :=
  take (bound (String.length s) k) s.

(** [s[k:]] *)
Definition slice_from (s : string) (k : Z) : string :=
  drop (bound (String.length s) k) s.

(** [s[i:i+1]]: the character at [i] as a string, empty when out of range. *)
Definition slice1 (s : string) (i : Z) : string :=
  take 1 (slice_from s i).

(** [s.endswith(suffix)] for one suffix. *)
Definition endswith1 (s suffix : string) : bool :=
  (String.length suffix <=? String.length s)%nat
  && (drop (String.length s - String.length suffix) s =? suffix)%string.

(** [s.endswith(suffixes)] for a tuple of suffixes. *)
Definition endswith (s : string) (suffixes : list string) : bool :=
  existsb (endswith1 s) suffixes.

(** [s.startswith(prefix)] *)
Definition startswith (s pre : string) : bool := String.prefix pre s.

(** [s.rfind(c)] for a one-character [c]: the highest index at which [c]
    occurs, [-1] when it does not. [rfind_at] scans [s] whose first character
    has index [i]. *)
Fixpoint rfind_at (c : ascii) (s : string) (i : Z) : Z :=
  match s with
  | EmptyString => (-1)%Z
  | String a s' =>
      let r := rfind_at c s' (i + 1)%Z in
      if (0 <=? r)%Z then r
      else if (a =? c)%char then i else (-1)%Z
  end.

Definition rfind (s : string) (c : ascii) : Z := rfind_at c s 0%Z.

(** [c in s] for a one-character [c]. *)
Fixpoint contains (c : ascii) (s : string) : bool :=
  match s with
  | EmptyString => false
  | String a s' => (a =? c)%char || contains c s'
  end.

(** Every character of [s] is [c] (true of the empty string). *)
Fixpoint all_are (c : ascii) (s : string) : bool :=
  match s with
  | EmptyString => true
  | String a s' => (a =? c)%char && all_are c s'
  end.

(** [str(n)] for a non-negative integer. *)
Definition str_of_nat (n : nat) : string :=
  NilEmpty.string_of_uint (Nat.to_uint n).

End Py.

(* ================================================================= *)
(** ** os.path (posixpath and genericpath) *)

Module OsPath.

Definition sep : ascii := "/"%char.
Definition extsep : ascii := "."%char.

(** The [while filenameIndex < dotIndex] loop of [genericpath._splitext]:
    [true] when a character other than [extsep] is met before [dotIndex]
    (the function then returns the split), [false] when the loop runs out.
    [fuel] is [dotIndex - filenameIndex]. *)
Fixpoint skip_leading_dots (p : string) (filenameIndex : Z) (fuel : nat) : bool :=
  match fuel with
  | O => false
  | S fuel' =>
      if negb (Py.slice1 p filenameIndex =? String extsep EmptyString)%string
      then true
      else skip_leading_dots p (filenameIndex + 1)%Z fuel'
  end.

(** [genericpath._splitext(p, sep, altsep, extsep)] with [altsep = None]. *)
Definition splitext (p : string) : string * string :=
  let sepIndex := Py.rfind p sep in
  let dotIndex := Py.rfind p extsep in
  if (sepIndex <? dotIndex)%Z
     && skip_leading_dots p (sepIndex + 1)%Z (Z.to_nat (dotIndex - (sepIndex + 1)))
  then (Py.slice_to p dotIndex, Py.slice_from p dotIndex)
  else (p, Py.slice_to p 0%Z).

(** [posixpath.join(a, b)] for two components. *)
Definition join (a b : string) : string :=
  if Py.startswith b (String sep EmptyString) then b
  else if (a =? "")%string || Py.endswith1 a (String sep EmptyString)
       then a ++ b
       else a ++ String sep EmptyString ++ b.

End OsPath.

(* ================================================================= *)
(** ** The conversion worker *)

Module Worker.

(** The three signals of [VideoConverterWorker], each carrying a [str]. *)
Inductive signal : Type :=
| progress_update (message : string)
| conversion_finished (message : string)
| conversion_error (message : string).

(** The exceptions the calls of the worker can raise. [OSError] stands for
    every [OSError] other than the three named ones. *)
Inductive exception : Type :=
| CalledProcessError (returncode : Z) (stdout stderr : string)
| FileNotFoundError
| PermissionError
| NotADirectoryError
| OSError
| UnicodeDecodeError.

(** A call returns a value or raises. *)
Inductive result (A : Type) : Type :=
| Returned (a : A)
| Raised (e : exception).
Arguments Returned {A} a.
Arguments Raised {A} e.

(** What launching a subprocess comes to: the program ran and exited with a
    return code, its captured output being text ([Exited]) or bytes that do
    not decode ([Undecodable]); or it was not started, because it could not
    be found ([NotFound]), because it may not be executed ([NotPermitted]),
    or for another reason of the operating system ([NotStarted]). *)
Inductive launch : Type :=
| Exited (returncode : Z) (stdout stderr : string)
| Undecodable (returncode : Z)
| NotFound
| NotPermitted
| NotStarted.

Record CompletedProcess : Type := {
  returncode : Z;
  stdout : string;
  stderr : string
}.

(** [subprocess.run(..., capture_output=True, text=True, check=True)]: the
    output is decoded before the return code is checked. *)
Definition subprocess_run (l : launch) : result CompletedProcess :=
  match l with
  | Exited rc out err =>
      if (rc =? 0)%Z
      then Returned {| returncode := rc; stdout := out; stderr := err |}
      else Raised (CalledProcessError rc out err)
  | Undecodable _ => Raised UnicodeDecodeError
  | NotFound => Raised FileNotFoundError
  | NotPermitted => Raised PermissionError
  | NotStarted => Raised OSError
  end.

(** The world outside the worker: what the version query answers, what
    [os.listdir] returns or raises, and what the [i]-th conversion (counted
    from 0, in the order the worker launches them) answers to its command
    line. *)
Record world : Type := {
  ffmpeg_version : launch;
  listdir : string -> result (list string);
  ffmpeg_convert : nat -> list string -> launch
}.

(** The entries [os.listdir] returns; none when it raises. *)
Definition listed (w : world) (path : string) : list string :=
  match listdir w path with
  | Returned entries => entries
  | Raised _ => []
  end.

(** What the worker does, in order. *)
Inductive action : Type :=
| Emit (s : signal)
| Listdir (path : string)
| Subprocess (command : list string).

(** The worker's code writes to the trace as it goes. *)
Definition W (A : Type) : Type := list action * A.

Definition ret {A : Type} (a : A) : W A := ([], a).

Definition bind {A B : Type} (m : W A) (k : A -> W B) : W B :=
  let (t1, a) := m in
  let (t2, b) := k a in
  (t1 ++ t2, b).

Definition act (a : action) : W unit := ([a], tt).
Definition emit (s : signal) : W unit := act (Emit s).

Notation "x <- m ;; k" := (bind m (fun x => k))
  (at level 61, m at next level, right associativity).
Notation "m ;;; k" := (bind m (fun _ => k))
  (at level 61, right associativity).

(** [self.video_extensions] *)
Definition video_extensions : list string :=
  [".mp4"; ".mkv"; ".avi"; ".mov"; ".webm"; ".flv"; ".wmv"].

(** The test of the first pass: [filename.lower().endswith(self.video_extensions)] *)
Definition is_video (filename : string) : bool :=
  Py.endswith (Py.lower filename) video_extensions.

(** The local variables of [run] once they are bound. *)
Record locals : Type := {
  converted_count : nat;
  total_videos : nat;
  video_files : list string
}.

(** [_is_ffmpeg_installed] *)
Definition version_command : list string := ["ffmpeg"; "-version"].

Definition _is_ffmpeg_installed (w : world) : W (result bool) :=
  act (Subprocess version_command) ;;;
  match subprocess_run (ffmpeg_version w) with
  | Returned _ => ret (Returned true)
  | Raised (CalledProcessError _ _ _) => ret (Returned false)
  | Raised FileNotFoundError => ret (Returned false)
  | Raised e => ret (Raised e)
  end.

(** The first pass: one step of [for filename in os.listdir(...)], on the pair
    [(video_files, total_videos)]. *)
Definition collect (acc : list string * nat) (filename : string) : list string * nat :=
  if is_video filename
  then (fst acc ++ [filename], snd acc + 1)
  else acc.

Definition first_pass (entries : list string) : list string * nat :=
  fold_left collect entries ([], 0).

(** The names the second pass derives from a candidate. *)
Definition output_filename (filename : string) : string :=
  (fst (OsPath.splitext filename) ++ ".gif")%string.

Definition input_path (directory_path filename : string) : string :=
  OsPath.join directory_path filename.

Definition output_path (directory_path filename : string) : string :=
  OsPath.join directory_path (output_filename filename).

Definition command (directory_path filename : string) : list string :=
  [ "ffmpeg";
    "-i"; input_path directory_path filename;
    "-vf"; "fps=10,scale=320:-1:flags=lanczos";
    "-y";
    output_path directory_path filename ].

(** How a body ends: it falls through (a loop body to the next iteration),
    it executes [return], or an exception leaves it. *)
Inductive ending : Type :=
| Next
| Return
| Raise (e : exception).

(** The body of the second pass for the candidate at index [i]; gives the
    new value of [converted_count]. *)
Definition convert_one (w : world) (directory_path : string) (total_videos : nat)
    (i : nat) (filename : string) (converted_count : nat) : W (ending * nat) :=
  emit (progress_update
          ("Converting '" ++ filename ++ "' (" ++ Py.str_of_nat (i + 1) ++ "/"
             ++ Py.str_of_nat total_videos ++ ")...")) ;;;
  act (Subprocess (command directory_path filename)) ;;;
  match subprocess_run (ffmpeg_convert w i (command directory_path filename)) with
  | Returned _ =>
      emit (progress_update
              ("Successfully converted '" ++ filename ++ "' to '"
                 ++ output_filename filename ++ "'.")) ;;;
      ret (Next, converted_count + 1)
  | Raised (CalledProcessError _ _ err) =>
      emit (progress_update ("Error converting '" ++ filename ++ "': " ++ err)) ;;;
      emit (conversion_error ("Failed to convert '" ++ filename ++ "'. Error: " ++ err)) ;;;
      ret (Next, converted_count)
  | Raised FileNotFoundError =>
      emit (conversion_error
              "FFmpeg command not found. Please ensure FFmpeg is installed and in your PATH.") ;;;
      ret (Return, converted_count)
  | Raised e =>
      ret (Raise e, converted_count)
  end.

(** [for i, filename in enumerate(video_files)], from index [i] on. *)
Fixpoint second_pass (w : world) (directory_path : string) (total_videos : nat)
    (files : list string) (i : nat) (converted_count : nat) : W (ending * nat) :=
  match files with
  | [] => ret (Next, converted_count)
  | filename :: rest =>
      r <- convert_one w directory_path total_videos i filename converted_count ;;
      match fst r with
      | Next => second_pass w directory_path total_videos rest (i + 1) (snd r)
      | Return => ret r
      | Raise _ => ret r
      end
  end.

Definition LF : string := String (ascii_of_nat 10) EmptyString.

(** [VideoConverterWorker.run]: how it ends, and the last values of its
    local variables ([None] when it ends before they are bound on lines
    31 to 33). *)
Definition run (w : world) (directory_path : string) : W (ending * option locals) :=
  installed <- _is_ffmpeg_installed w ;;
  match installed with
  | Raised e => ret (Raise e, None)
  | Returned installed =>
      if negb installed then
        emit (conversion_error
                ("FFmpeg is not installed or not in your system's PATH." ++ LF
                   ++ "Please install FFmpeg to use this converter.")) ;;;
        ret (Return, None)
      else
        act (Listdir directory_path) ;;;
        match listdir w directory_path with
        | Raised e =>
            ret (Raise e, Some {| converted_count := 0; total_videos := 0;
                                  video_files := [] |})
        | Returned entries =>
            let (video_files, total_videos) := first_pass entries in
            if (total_videos =? 0)%nat then
              emit (progress_update "No video files found in the selected directory.") ;;;
              emit (conversion_finished
                      "Conversion process completed (no videos to convert).") ;;;
              ret (Return, Some {| converted_count := 0; total_videos := total_videos;
                                   video_files := video_files |})
            else
              emit (progress_update
                      ("Found " ++ Py.str_of_nat total_videos
                         ++ " video(s). Starting conversion...")) ;;;
              r <- second_pass w directory_path total_videos video_files 0 0 ;;
              match fst r with
              | Next =>
                  emit (conversion_finished
                          ("Conversion process completed. Converted "
                             ++ Py.str_of_nat (snd r) ++ " of "
                             ++ Py.str_of_nat total_videos ++ " videos.")) ;;;
                  ret (Next, Some {| converted_count := snd r;
                                     total_videos := total_videos;
                                     video_files := video_files |})
              | e =>
                  ret (e, Some {| converted_count := snd r;
                                  total_videos := total_videos;
                                  video_files := video_files |})
              end
        end
  end.

(** The trace of a run, how it ended, and the last values of its local
    variables. *)
Definition trace (w : world) (directory_path : string) : list action :=
  fst (run w directory_path).

Definition ended (w : world) (directory_path : string) : ending :=
  fst (snd (run w directory_path)).

Definition final (w : world) (directory_path : string) : option locals :=
  snd (snd (run w directory_path)).

Definition is_progress (a : action) : bool :=
  match a with Emit (progress_update _) => true | _ => false end.
Definition is_finished (a : action) : bool :=
  match a with Emit (conversion_finished _) => true | _ => false end.
Definition is_error (a : action) : bool :=
  match a with Emit (conversion_error _) => true | _ => false end.
Definition is_listdir (a : action) : bool :=
  match a with Listdir _ => true | _ => false end.

(** The command lines of the subprocesses of a trace, in order. *)
Fixpoint launched (t : list action) : list (list string) :=
  match t with
  | [] => []
  | Subprocess c :: t' => c :: launched t'
  | _ :: t' => launched t'
  end.

(** What the conversion of the candidate at index [i] of [files] answers. *)
Definition outcome (w : world) (directory_path : string) (files : list string)
    (i : nat) : launch :=
  ffmpeg_convert w i (command directory_path (nth i files "")).

Definition exits_zero (l : launch) : bool :=
  match l with
  | Exited rc _ _ => (rc =? 0)%Z
  | Undecodable rc => (rc =? 0)%Z
  | _ => false
  end.


(** The program ran and its output is text: [subprocess.run] returns or
    raises [CalledProcessError]. *)
Definition exited (l : launch) : bool :=
  match l with
  | Exited _ _ _ => true
  | _ => false
  end.


(** The candidates of [files] at the indices [i .. i+n-1] whose conversion
    exits with status zero. *)
Definition converted (w : world) (directory_path : string) (files : list string)
    (i n : nat) : list nat :=
  filter (fun j => exits_zero (outcome w directory_path files j)) (seq i n).

Definition count (p : action -> bool) (t : list action) : nat :=
  List.length (filter p t).

End Worker.

(* ================================================================= *)
(** ** The application shell *)

Module Shell.

(** The modal boxes the shell shows. *)
Inductive dialog : Type :=
| Warning (title text : string)
| Information (title text : string)
| Critical (title text : string).

(** The attributes of [VideoConverterApp] that its slots read or write.
    [worker_thread] is the directory the last worker was made for
    ([None] before any). *)
Record shell : Type := {
  directory_path : string;
  worker_thread : option string;
  path_display : string;
  browse_button : bool;      (* isEnabled() *)
  convert_button : bool;     (* isEnabled() *)
  log_output : list string;
  status_label : string;
  dialogs : list dialog
}.

(** [__init__] and [_init_ui] *)
Definition init : shell := {|
  directory_path := "";
  worker_thread := None;
  path_display := "";
  browse_button := true;
  convert_button := false;
  log_output := [];
  status_label := "Ready.";
  dialogs := []
|}.

(** Truth value of a [str]. *)
Definition truthy (s : string) : bool := negb (s =? "")%string.

(** [_browse_directory], [directory] being what the picker returned
    (empty when the user cancelled). *)
Definition _browse_directory (directory : string) (a : shell) : shell :=
  if truthy directory then
    {| directory_path := directory;
       worker_thread := worker_thread a;
       path_display := directory;
       browse_button := browse_button a;
       convert_button := true;
       log_output := [("Directory selected: " ++ directory)%string];
       status_label := "Directory selected. Click 'Start Conversion'.";
       dialogs := dialogs a |}
  else
    {| directory_path := "";
       worker_thread := worker_thread a;
       path_display := "";
       browse_button := browse_button a;
       convert_button := false;
       log_output := log_output a ++ ["No directory selected."];
       status_label := "Ready.";
       dialogs := dialogs a |}.

(** [_start_conversion]: the new state, and the directory of the worker it
    started, if it started one. *)
Definition _start_conversion (a : shell) : shell * option string :=
  if negb (truthy (directory_path a)) then
    ({| directory_path := directory_path a;
        worker_thread := worker_thread a;
        path_display := path_display a;
        browse_button := browse_button a;
        convert_button := convert_button a;
        log_output := log_output a;
        status_label := status_label a;
        dialogs := dialogs a ++ [Warning "No Directory" "Please select a directory first."] |},
     None)
  else
    ({| directory_path := directory_path a;
        worker_thread := Some (directory_path a);
        path_display := path_display a;
        browse_button := false;
        convert_button := false;
        log_output := ["Starting video conversion process..."];
        status_label := "Conversion in progress...";
        dialogs := dialogs a |},
     Some (directory_path a)).

(** [_update_log] *)
Definition _update_log (message : string) (a : shell) : shell :=
  {| directory_path := directory_path a;
     worker_thread := worker_thread a;
     path_display := path_display a;
     browse_button := browse_button a;
     convert_button := convert_button a;
     log_output := log_output a ++ [message];
     status_label := status_label a;
     dialogs := dialogs a |}.

(** The part [_conversion_finished] and [_conversion_error] share: both
    buttons back on (the second only with a directory), the status line and
    the box. *)
Definition reenable (status : string) (box : dialog) (a : shell) : shell :=
  {| directory_path := directory_path a;
     worker_thread := worker_thread a;
     path_display := path_display a;
     browse_button := true;
     convert_button := if truthy (directory_path a) then true else convert_button a;
     log_output := log_output a;
     status_label := status;
     dialogs := dialogs a ++ [box] |}.

(** [_conversion_finished] *)
Definition _conversion_finished (message : string) (a : shell) : shell :=
  reenable "Conversion complete." (Information "Conversion Complete" message)
    (_update_log message a).

(** [_conversion_error] *)
Definition _conversion_error (message : string) (a : shell) : shell :=
  reenable "Conversion failed." (Critical "Conversion Error" message)
    (_update_log ("ERROR: " ++ message)%string a).

(** What every slot keeps: the convert button is on only with a directory. *)
Definition button_has_directory (a : shell) : Prop :=
  convert_button a = true -> truthy (directory_path a) = true.

(** The connections made in [_start_conversion]. *)
Definition slot (s : Worker.signal) : shell -> shell :=
  match s with
  | Worker.progress_update m => _update_log m
  | Worker.conversion_finished m => _conversion_finished m
  | Worker.conversion_error m => _conversion_error m
  end.

End Shell.

(* ================================================================= *)
(** ** Shell and workers together *)

Module System.

(** The shell, the workers started so far (each with what it has yet to do:
    a worker is active until that list is empty) and the signals emitted but
    not yet handled by the shell's event loop. *)
Record system : Type := {
  gui : Shell.shell;
  threads : list (list Worker.action);
  queue : list Worker.signal
}.

Definition init : system :=
  {| gui := Shell.init; threads := []; queue := [] |}.

(** What can happen next. *)
Inductive event : Type :=
| Browse (directory : string)   (* the browse button is clicked, the picker answers *)
| Start                         (* the convert button is clicked *)
| Work (n : nat)                (* worker [n] does its next action *)
| Deliver.                      (* the event loop runs the slot of the oldest signal *)

Definition emitted (a : Worker.action) : list Worker.signal :=
  match a with Worker.Emit s => [s] | _ => [] end.

(** Replace element [n] of [l] by [x]. *)
Fixpoint set_nth {A : Type} (n : nat) (x : A) (l : list A) : list A :=
  match n, l with
  | _, [] => []
  | O, _ :: l' => x :: l'
  | S n', y :: l' => y :: set_nth n' x l'
  end.

(** One event; [None] when it cannot happen in this state: a disabled button
    sends no click, a finished worker does nothing, an empty queue delivers
    nothing. *)
Definition step (w : Worker.world) (e : event) (s : system) : option system :=
  match e with
  | Browse directory =>
      if Shell.browse_button (gui s)
      then Some {| gui := Shell._browse_directory directory (gui s);
                   threads := threads s; queue := queue s |}
      else None
  | Start =>
      if Shell.convert_button (gui s)
      then let (g, started) := Shell._start_conversion (gui s) in
           Some {| gui := g;
                   threads := match started with
                              | Some d => threads s ++ [Worker.trace w d]
                              | None => threads s
                              end;
                   queue := queue s |}
      else None
  | Work n =>
      match nth_error (threads s) n with
      | Some (a :: rest) =>
          Some {| gui := gui s;
                  threads := set_nth n rest (threads s);
                  queue := queue s ++ emitted a |}
      | _ => None
      end
  | Deliver =>
      match queue s with
      | sig :: q => Some {| gui := Shell.slot sig (gui s);
                            threads := threads s; queue := q |}
      | [] => None
      end
  end.

Fixpoint exec (w : Worker.world) (es : list event) (s : system) : option system :=
  match es with
  | [] => Some s
  | e :: es' =>
      match step w e s with
      | Some s' => exec w es' s'
      | None => None
      end
  end.

Definition reachable (w : Worker.world) (s : system) : Prop :=
  exists es, exec w es init = Some s.

(** The workers still running. *)
Definition is_active (t : list Worker.action) : bool :=
  match t with [] => false | _ :: _ => true end.

Definition active (s : system) : nat :=
  List.length (filter is_active (threads s)).

End System.

(* ================================================================= *)
(** ** Some worlds *)

Module Scenarios.
Import Worker.

Definition ok : launch := Exited 0 "" "".

(** No converter on the PATH. *)
Definition missing : world :=
  {| ffmpeg_version := NotFound;
     listdir := fun _ => Returned ["a.mp4"];
     ffmpeg_convert := fun _ _ => NotFound |}.

(** A converter whose version query fails. *)
Definition broken : world :=
  {| ffmpeg_version := Exited 1 "" "cannot load library";
     listdir := fun _ => Returned ["a.mp4"];
     ffmpeg_convert := fun _ _ => ok |}.

(** A directory without videos. *)
Definition no_videos : world :=
  {| ffmpeg_version := ok;
     listdir := fun _ => Returned ["notes.txt"; "mp4"];
     ffmpeg_convert := fun _ _ => ok |}.

(** One video, converted. *)
Definition one_video : world :=
  {| ffmpeg_version := ok;
     listdir := fun _ => Returned ["clip.MP4"; "notes.txt"];
     ffmpeg_convert := fun _ _ => ok |}.

(** Two videos, the conversion of the first fails. *)
Definition first_fails : world :=
  {| ffmpeg_version := ok;
     listdir := fun _ => Returned ["a.mp4"; "notes.txt"; "b.mp4"];
     ffmpeg_convert := fun i _ =>
       match i with
       | 0 => Exited 1 "" "Invalid data found"
       | _ => ok
       end |}.

(** Three videos, the converter is gone when the second is reached. *)
Definition vanishes : world :=
  {| ffmpeg_version := ok;
     listdir := fun _ => Returned ["a.mp4"; "b.mkv"; "c.avi"];
     ffmpeg_convert := fun i _ =>
       match i with
       | 0 => ok
       | _ => NotFound
       end |}.



(** A directory that is gone when the worker lists it. *)
Definition no_directory : world :=
  {| ffmpeg_version := ok;
     listdir := fun _ => Raised FileNotFoundError;
     ffmpeg_convert := fun _ _ => ok |}.

(** The user picks a directory and starts a run over [first_fails]; the
    worker gets as far as the two signals of the failed first file (seven
    actions), and the shell handles the four signals emitted so far. *)
Definition failure_handled : list System.event :=
  [System.Browse "/videos"; System.Start]
    ++ repeat (System.Work 0) 7
    ++ repeat System.Deliver 4.

End Scenarios.

(* ================================================================= *)
(** ** What is observed of a run and of the shell *)

Module Observe.
Import Worker Shell System.

(** The signals of a trace, in the order they are emitted. *)
Fixpoint signals (t : list action) : list signal :=
  match t with
  | [] => []
  | Emit s :: t' => s :: signals t'
  | _ :: t' => signals t'
  end.

(** The signals whose slots put the buttons back on. *)
Definition is_terminal (s : signal) : bool :=
  match s with
  | progress_update _ => false
  | conversion_finished _ => true
  | conversion_error _ => true
  end.

(** The line a signal leaves in the log ([_update_log] as the three slots
    call it). *)
Definition log_line (s : signal) : string :=
  match s with
  | progress_update m => m
  | conversion_finished m => m
  | conversion_error m => ("ERROR: " ++ m)%string
  end.

(** A message carries two counts when it holds the text of the first and,
    after it, the text of the second. *)
Definition carries_counts (m : string) (x y : nat) : Prop :=
  exists a b c,
    m = (a ++ Py.str_of_nat x ++ b ++ Py.str_of_nat y ++ c)%string.

Definition is_warning (d : dialog) : bool :=
  match d with Warning _ _ => true | _ => false end.

(** What every event keeps of the shell: the convert button is on only with
    a directory, the path display shows the directory, the convert button
    is off when the browse button is, and no warning was shown. *)
Definition tidy (a : shell) : Prop :=
  (convert_button a = true -> truthy (directory_path a) = true)
  /\ path_display a = directory_path a
  /\ (browse_button a = false -> convert_button a = false)
  /\ filter is_warning (dialogs a) = [].

(** The shell handles a list of signals, oldest first. *)
Definition handle (sigs : list signal) (a : shell) : shell :=
  fold_left (fun g s => slot s g) sigs a.

(** A whole run, nothing else happening meanwhile: the click on the convert
    button, worker [n] doing every action of [t], the event loop delivering
    every signal of [t]. *)
Definition whole_run (n : nat) (t : list action) : list event :=
  Start :: repeat (Work n) (List.length t)
    ++ repeat Deliver (List.length (signals t)).

(** No conversion of the world exits with a status other than zero. *)
Definition no_file_fails (w : world) : Prop :=
  forall i c rc out err, ffmpeg_convert w i c = Exited rc out err -> rc = 0%Z.

(** What is still to come from the workers to the shell: the signals in the
    queue, then those the workers have yet to emit. *)
Definition pending (s : system) : list signal :=
  queue s ++ signals (concat (threads s)).

(** The state of shell and workers between runs ([quiet]) and during one
    ([running]): during a run both buttons are off, at most one worker has
    something left to do, and what is pending holds no terminal signal but,
    possibly, one at its end, which is then the last thing the workers do. *)
Definition quiet (s : system) : Prop :=
  queue s = [] /\ concat (threads s) = [].

Definition running (s : system) : Prop :=
  browse_button (gui s) = false
  /\ convert_button (gui s) = false
  /\ active s <= 1
  /\ exists q,
       forallb (fun y => negb (is_terminal y)) q = true
       /\ (pending s = q
           \/ exists x,
                pending s = q ++ [x]
                /\ is_terminal x = true
                /\ (concat (threads s) = []
                    \/ exists r x', concat (threads s) = r ++ [Emit x'])).

End Observe.

(* ================================================================= *)
(** * Properties *)

(** ** Strings *)

Module PyFacts.
Import Py.

Lemma append_assoc (a b c : string) : ((a ++ b) ++ c)%string = (a ++ (b ++ c))%string.
Proof. induction a as [|x a IH]; simpl; [reflexivity | now rewrite IH]. Qed.

Lemma length_append (a b : string) :
  String.length (a ++ b) = String.length a + String.length b.
Proof. induction a as [|x a IH]; simpl; [reflexivity | now rewrite IH]. Qed.

Lemma take_drop (n : nat) (s : string) : (take n s ++ drop n s)%string = s.
Proof.
  revert s; induction n as [|n IH]; intros [|c s]; simpl; try reflexivity.
  now rewrite IH.
Qed.

Lemma take_append (a b : string) : take (String.length a) (a ++ b) = a.
Proof. induction a as [|x a IH]; simpl; [now destruct b | now rewrite IH]. Qed.

Lemma drop_append (a b : string) : drop (String.length a) (a ++ b) = b.
Proof. induction a as [|x a IH]; simpl; [reflexivity | exact IH]. Qed.

Lemma length_take (n : nat) (s : string) :
  n <= String.length s -> String.length (take n s) = n.
Proof.
  revert s; induction n as [|n IH]; intros [|c s]; simpl; intros H; try lia.
  rewrite IH; lia.
Qed.

Lemma append_inj_r (a b c : string) : (a ++ c)%string = (b ++ c)%string -> a = b.
Proof.
  intros H.
  assert (L : String.length a = String.length b).
  { apply (f_equal String.length) in H. rewrite !length_append in H. lia. }
  rewrite <- (take_append a c), H, L. apply take_append.
Qed.

Lemma append_inj_length (a b c d : string) :
  String.length a = String.length c ->
  (a ++ b)%string = (c ++ d)%string -> a = c /\ b = d.
Proof.
  intros L H. split.
  - rewrite <- (take_append a b), H, L. apply take_append.
  - rewrite <- (drop_append a b), H, L. apply drop_append.
Qed.

(** [endswith1] decides "ends with". *)
Lemma endswith1_iff (s suffix : string) :
  endswith1 s suffix = true <-> exists p, s = (p ++ suffix)%string.
Proof.
  unfold endswith1. rewrite andb_true_iff, Nat.leb_le, String.eqb_eq. split.
  - intros [_ H]. set (n := String.length s - String.length suffix) in H.
    exists (take n s). rewrite <- H. symmetry. apply take_drop.
  - intros [p ->]. rewrite length_append. split; [lia|].
    replace (String.length p + String.length suffix - String.length suffix)
      with (String.length p) by lia.
    apply drop_append.
Qed.

Lemma endswith_iff (s : string) (suffixes : list string) :
  endswith s suffixes = true <->
  exists e, In e suffixes /\ exists p, s = (p ++ e)%string.
Proof.
  unfold endswith. rewrite existsb_exists.
  split; intros [e [He H]]; exists e; (split; [exact He|]); now apply endswith1_iff.
Qed.

Lemma lower_append (a b : string) : lower (a ++ b) = (lower a ++ lower b)%string.
Proof. induction a as [|x a IH]; simpl; [reflexivity | now rewrite IH]. Qed.

Lemma length_lower (s : string) : String.length (lower s) = String.length s.
Proof. induction s as [|c s IH]; simpl; [reflexivity | now rewrite IH]. Qed.

(** Lowering neither makes nor unmakes a dot or a slash. *)
Lemma lower_char_dot (c : ascii) : (lower_char c =? ".")%char = (c =? ".")%char.
Proof. destruct c as [[] [] [] [] [] [] [] []]; reflexivity. Qed.

Lemma lower_char_slash (c : ascii) : (lower_char c =? "/")%char = (c =? "/")%char.
Proof. destruct c as [[] [] [] [] [] [] [] []]; reflexivity. Qed.

Lemma contains_lower_dot (s : string) : contains "." (lower s) = contains "." s.
Proof. induction s as [|c s IH]; simpl; [reflexivity | now rewrite lower_char_dot, IH]. Qed.

Lemma contains_lower_slash (s : string) : contains "/" (lower s) = contains "/" s.
Proof. induction s as [|c s IH]; simpl; [reflexivity | now rewrite lower_char_slash, IH]. Qed.

Lemma contains_append (c : ascii) (a b : string) :
  contains c (a ++ b) = contains c a || contains c b.
Proof. induction a as [|x a IH]; simpl; [reflexivity | now rewrite IH, orb_assoc]. Qed.

(** If the lowered text starts with a dot, so does the text. *)
Lemma lower_starts_dot (x e : string) :
  lower x = String "." e -> exists x0, x = String "." x0 /\ lower x0 = e.
Proof.
  destruct x as [|c x]; simpl; [discriminate|].
  intros H. injection H as Hc He. exists x. split; [|exact He].
  f_equal. apply Ascii.eqb_eq. rewrite <- lower_char_dot. now apply Ascii.eqb_eq.
Qed.

(** [rfind]: the answer is [-1] or an index of the scanned text. *)
Lemma rfind_at_range (c : ascii) (s : string) (i : Z) :
  (rfind_at c s i = -1 \/ i <= rfind_at c s i < i + Z.of_nat (String.length s))%Z.
Proof.
  revert i; induction s as [|a s IH]; intros i; simpl; [now left|].
  specialize (IH (i + 1)%Z).
  destruct (0 <=? rfind_at c s (i + 1))%Z eqn:E.
  - destruct IH as [IH|IH]; [rewrite IH in E; discriminate | right; lia].
  - destruct (a =? c)%char; [right; lia | now left].
Qed.

Lemma rfind_at_absent (c : ascii) (s : string) (i : Z) :
  contains c s = false -> rfind_at c s i = (-1)%Z.
Proof.
  revert i; induction s as [|a s IH]; intros i; simpl; [reflexivity|].
  rewrite orb_false_iff. intros [Ha Hs]. now rewrite IH, Ha.
Qed.

(** The last occurrence: [c] followed by text without [c]. *)
Lemma rfind_at_last (c : ascii) (a b : string) (i : Z) :
  (0 <= i)%Z -> contains c b = false ->
  rfind_at c (a ++ String c b) i = (i + Z.of_nat (String.length a))%Z.
Proof.
  revert i; induction a as [|x a IH]; intros i Hi Hb.
  - simpl. rewrite (rfind_at_absent _ _ _ Hb). simpl.
    rewrite Ascii.eqb_refl. lia.
  - cbn [append rfind_at String.length].
    rewrite IH by (lia || assumption).
    destruct (0 <=? i + 1 + Z.of_nat (String.length a))%Z eqn:E; [lia|].
    apply Z.leb_gt in E. lia.
Qed.

Lemma bound_nat (len n : nat) : n <= len -> bound len (Z.of_nat n) = n.
Proof.
  intros H. unfold bound.
  destruct (Z.of_nat n <? 0)%Z eqn:E; [apply Z.ltb_lt in E; lia|]. lia.
Qed.

Lemma slice_to_append (a b : string) :
  slice_to (a ++ b) (Z.of_nat (String.length a)) = a.
Proof.
  unfold slice_to. rewrite bound_nat by (rewrite length_append; lia).
  apply take_append.
Qed.

Lemma slice_from_append (a b : string) :
  slice_from (a ++ b) (Z.of_nat (String.length a)) = b.
Proof.
  unfold slice_from. rewrite bound_nat by (rewrite length_append; lia).
  apply drop_append.
Qed.

Lemma slice_to_0 (s : string) : slice_to s 0 = "".
Proof.
  unfold slice_to.
  replace (bound (String.length s) 0) with 0 by (unfold bound; simpl; lia).
  reflexivity.
Qed.

Lemma slice1_append (a : string) (c : ascii) (b : string) :
  slice1 (a ++ String c b) (Z.of_nat (String.length a)) = String c "".
Proof. unfold slice1. rewrite slice_from_append. reflexivity. Qed.

End PyFacts.

(** ** os.path *)

Module OsPathFacts.
Import Py PyFacts OsPath.

(** The loop over the leading dots: it finds another character exactly when
    the text between [filenameIndex] and [dotIndex] is not all dots. *)
Lemma skip_leading_dots_spec (root pre rest : string) :
  skip_leading_dots (pre ++ root ++ rest) (Z.of_nat (String.length pre))
    (String.length root)
  = negb (all_are "." root).
Proof.
  revert pre; induction root as [|c root IH]; intros pre; [reflexivity|].
  cbn [String.length skip_leading_dots all_are append].
  rewrite slice1_append. unfold extsep. cbn [String.eqb].
  destruct (c =? ".")%char eqn:E; cbn [negb andb]; [|reflexivity].
  apply Ascii.eqb_eq in E; subst c.
  specialize (IH (pre ++ ".")%string).
  rewrite length_append, append_assoc in IH. cbn [String.length append] in IH.
  replace (Z.of_nat (String.length pre) + 1)%Z
    with (Z.of_nat (String.length pre + 1)) by lia.
  exact IH.
Qed.

(** [splitext] on a name that ends in a dot and a dot-free tail, and has no
    separator: the split is made unless only dots come before. *)
Lemma splitext_last_dot (root x0 : string) :
  contains "/" (root ++ String "." x0) = false ->
  contains "." x0 = false ->
  splitext (root ++ String "." x0)
  = if all_are "." root
    then ((root ++ String "." x0)%string, "")
    else (root, String "." x0).
Proof.
  intros Hs Hd. unfold splitext, rfind, sep, extsep.
  rewrite (rfind_at_absent _ _ _ Hs), (rfind_at_last "." root x0 0) by (lia || assumption).
  replace (-1 <? 0 + Z.of_nat (String.length root))%Z with true
    by (symmetry; apply Z.ltb_lt; lia).
  replace (Z.to_nat (0 + Z.of_nat (String.length root) - (-1 + 1)))
    with (String.length root) by lia.
  change (-1 + 1)%Z with (Z.of_nat (String.length "")).
  change (root ++ String "." x0)%string with ("" ++ root ++ String "." x0)%string at 1.
  rewrite skip_leading_dots_spec. cbn [append andb Z.add].
  destruct (all_are "." root); cbn [negb].
  - now rewrite slice_to_0.
  - now rewrite slice_to_append, slice_from_append.
Qed.

(** A name whose only dot is its first character is not split. *)
Lemma splitext_dotfile (rest : string) :
  contains "." rest = false ->
  splitext (String "." rest) = (String "." rest, "").
Proof.
  intros Hd. unfold splitext, rfind, extsep.
  pose proof (rfind_at_last "." "" rest 0 ltac:(lia) Hd) as L.
  cbn [append String.length Z.of_nat Z.add] in L. rewrite L, !slice_to_0.
  destruct (rfind_at_range sep (String "." rest) 0) as [R|R].
  - rewrite R. reflexivity.
  - replace (rfind_at sep (String "." rest) 0 <? 0)%Z with false
      by (symmetry; apply Z.ltb_ge; lia).
    reflexivity.
Qed.

(** Joining a directory and a name without separator puts the name behind a
    prefix that depends on the directory alone. *)
Lemma join_name (a b : string) :
  contains "/" b = false ->
  join a b = ((if (a =? "")%string || endswith1 a "/" then a else a ++ "/") ++ b)%string.
Proof.
  intros Hb. unfold join, startswith. change (String sep "") with "/".
  assert (P : String.prefix "/" b = false).
  { destruct b as [|c b]; [reflexivity|].
    cbn in Hb. apply orb_false_iff in Hb as [Hc _].
    cbn [String.prefix]. destruct (ascii_dec "/" c) as [E|E]; [|reflexivity].
    subst c. discriminate Hc. }
  rewrite P.
  destruct ((a =? "")%string || endswith1 a "/"); [reflexivity|].
  now rewrite append_assoc.
Qed.

End OsPathFacts.

(** ** The worker: which entries are candidates, and their output names *)

Module Candidates.
Import Py PyFacts OsPath OsPathFacts Worker.

(** The first pass keeps what it has and appends the entries that pass the
    test, counting them. *)
Lemma fold_collect (entries acc : list string) (n : nat) :
  fold_left collect entries (acc, n)
  = (acc ++ filter is_video entries, n + List.length (filter is_video entries)).
Proof.
  revert acc n; induction entries as [|f entries IH]; intros acc n; simpl.
  - now rewrite app_nil_r, Nat.add_0_r.
  - unfold collect at 2. destruct (is_video f); simpl.
    + rewrite IH, <- app_assoc. simpl. f_equal. lia.
    + apply IH.
Qed.

Lemma first_pass_filter (entries : list string) :
  first_pass entries
  = (filter is_video entries, List.length (filter is_video entries)).
Proof. unfold first_pass. now rewrite fold_collect. Qed.

(** Every recognised extension is a dot and a tail free of dots and slashes. *)
Lemma video_extension_shape (e : string) :
  In e video_extensions ->
  exists e0, e = String "." e0 /\ contains "." e0 = false /\ contains "/" e0 = false.
Proof.
  unfold video_extensions. simpl.
  intros H; repeat (destruct H as [<-|H]; [eexists; repeat split; reflexivity|]).
  contradiction.
Qed.

(** A candidate is a base followed by a dot and a tail that lowers to a
    recognised extension. *)
Lemma is_video_split (filename : string) :
  is_video filename = true ->
  exists base x0,
    filename = (base ++ String "." x0)%string
    /\ In (lower (String "." x0)) video_extensions
    /\ contains "." x0 = false /\ contains "/" x0 = false.
Proof.
  unfold is_video. rewrite endswith_iff. intros [e [He [p Hp]]].
  set (n := String.length p).
  assert (Hlen : String.length filename = n + String.length e).
  { rewrite <- (length_lower filename), Hp. apply length_append. }
  assert (Hx : lower (drop n filename) = e).
  { rewrite <- (take_drop n filename), lower_append in Hp.
    apply append_inj_length in Hp; [apply Hp|].
    rewrite length_lower. apply length_take. lia. }
  destruct (video_extension_shape e He) as [e0 [-> [Hd Hs]]].
  destruct (lower_starts_dot _ _ Hx) as [x0 [Hdrop Hx0]].
  exists (take n filename), x0. repeat split.
  - now rewrite <- Hdrop, take_drop.
  - cbn [lower]. now rewrite Hx0.
  - now rewrite <- contains_lower_dot, Hx0.
  - now rewrite <- contains_lower_slash, Hx0.
Qed.

(** The output name of a dot file is the whole name and [.gif]. *)
Lemma output_filename_dotfile (rest : string) :
  contains "." rest = false ->
  output_filename (String "." rest) = (String "." rest ++ ".gif")%string.
Proof. intros H. unfold output_filename. now rewrite splitext_dotfile. Qed.

End Candidates.

(** ** The worker: the shape of a run *)

Module RunFacts.
Import Py PyFacts OsPath Worker Candidates.

Lemma is_ffmpeg_installed_trace (w : world) :
  _is_ffmpeg_installed w = ([Subprocess version_command], snd (_is_ffmpeg_installed w)).
Proof.
  unfold _is_ffmpeg_installed.
  destruct (subprocess_run (ffmpeg_version w)) as [c|[]]; reflexivity.
Qed.



Lemma listed_returned (w : world) (d : string) (entries : list string) :
  listdir w d = Returned entries -> listed w d = entries.
Proof. unfold listed. now intros ->. Qed.

Lemma listed_raised (w : world) (d : string) (e : exception) :
  listdir w d = Raised e -> listed w d = [].
Proof. unfold listed. now intros ->. Qed.

(** A run whose preflight check raises. *)
Lemma run_preflight_raises (w : world) (directory_path : string) (e : exception) :
  snd (_is_ffmpeg_installed w) = Raised e ->
  run w directory_path = ([Subprocess version_command], (Raise e, None)).
Proof.
  intros H. unfold run. rewrite is_ffmpeg_installed_trace, H. reflexivity.
Qed.

(** A run without the converter. *)
Lemma run_unavailable (w : world) (directory_path : string) :
  snd (_is_ffmpeg_installed w) = Returned false ->
  run w directory_path
  = ([Subprocess version_command;
      Emit (conversion_error
              ("FFmpeg is not installed or not in your system's PATH." ++ LF
                 ++ "Please install FFmpeg to use this converter."))],
     (Return, None)).
Proof.
  intros H. unfold run. rewrite is_ffmpeg_installed_trace, H. reflexivity.
Qed.

(** A run whose directory cannot be listed. *)
Lemma run_listdir_raises (w : world) (directory_path : string) (e : exception) :
  snd (_is_ffmpeg_installed w) = Returned true ->
  listdir w directory_path = Raised e ->
  run w directory_path
  = ([Subprocess version_command; Listdir directory_path],
     (Raise e, Some {| converted_count := 0; total_videos := 0; video_files := [] |})).
Proof.
  intros H L. unfold run. rewrite is_ffmpeg_installed_trace, H. cbn [bind negb act].
  rewrite L. reflexivity.
Qed.

(** A run that finds no video. *)
Lemma run_empty (w : world) (directory_path : string) (entries : list string) :
  snd (_is_ffmpeg_installed w) = Returned true ->
  listdir w directory_path = Returned entries ->
  filter is_video entries = [] ->
  run w directory_path
  = ([Subprocess version_command;
      Listdir directory_path;
      Emit (progress_update "No video files found in the selected directory.");
      Emit (conversion_finished "Conversion process completed (no videos to convert).")],
     (Return, Some {| converted_count := 0; total_videos := 0; video_files := [] |})).
Proof.
  intros H L E. unfold run.
  rewrite is_ffmpeg_installed_trace, H. cbn [bind negb act]. rewrite L.
  rewrite first_pass_filter, E. reflexivity.
Qed.

(** A run that finds videos: the second pass, and the finished signal when
    the pass falls through. *)
Lemma run_nonempty (w : world) (directory_path : string) :
  snd (_is_ffmpeg_installed w) = Returned true ->
  filter is_video (listed w directory_path) <> [] ->
  let files := filter is_video (listed w directory_path) in
  let total := List.length files in
  let p := second_pass w directory_path total files 0 0 in
  run w directory_path
  = ([Subprocess version_command;
      Listdir directory_path;
      Emit (progress_update
              ("Found " ++ str_of_nat total ++ " video(s). Starting conversion..."))]
       ++ fst p
       ++ match fst (snd p) with
          | Next =>
              [Emit (conversion_finished
                       ("Conversion process completed. Converted "
                          ++ str_of_nat (snd (snd p)) ++ " of "
                          ++ str_of_nat total ++ " videos."))]
          | _ => []
          end,
     (fst (snd p),
      Some {| converted_count := snd (snd p); total_videos := total;
              video_files := files |})).
Proof.
  intros H E files total p. unfold run.
  rewrite is_ffmpeg_installed_trace, H. cbn [bind negb act].
  destruct (listdir w directory_path) as [entries|e] eqn:L.
  2:{ unfold files in *. rewrite (listed_raised w directory_path e L) in E.
      now destruct E. }
  assert (F : files = filter is_video entries)
    by (unfold files; now rewrite (listed_returned w directory_path entries L)).
  rewrite first_pass_filter, <- F. fold total.
  assert (T : (total =? 0)%nat = false).
  { apply Nat.eqb_neq. intros Z0. apply E. now apply length_zero_iff_nil. }
  rewrite T. unfold emit, act. cbn [bind]. fold p.
  destruct p as [t [[| |e] c]]; cbn; now rewrite ?app_nil_r.
Qed.

(** The cases of a run. *)
Lemma run_cases (w : world) (directory_path : string) :
  (exists e, snd (_is_ffmpeg_installed w) = Raised e)
  \/ snd (_is_ffmpeg_installed w) = Returned false
  \/ (snd (_is_ffmpeg_installed w) = Returned true
      /\ ((exists e, listdir w directory_path = Raised e)
          \/ (exists entries, listdir w directory_path = Returned entries
                              /\ filter is_video entries = [])
          \/ filter is_video (listed w directory_path) <> [])).
Proof.
  destruct (snd (_is_ffmpeg_installed w)) as [[|]|e]; [|now right; left|left; eauto].
  right. right. split; [reflexivity|].
  destruct (listdir w directory_path) as [entries|e] eqn:L; [|left; eauto].
  right. destruct (filter is_video entries) as [|f fs] eqn:F.
  - left. eauto.
  - right. rewrite (listed_returned w directory_path entries L), F. discriminate.
Qed.

End RunFacts.

(** ** The worker: the second pass *)

Module SecondPass.
Import Py PyFacts OsPath Worker Candidates RunFacts.

Section Pass.
Variable w : world.
Variable directory_path : string.
Variable total_videos : nat.

Let body := convert_one w directory_path total_videos.
Let pass := second_pass w directory_path total_videos.

(** The three ways the body of the loop goes. *)
Lemma convert_one_zero (i : nat) (filename : string) (c : nat) (out err : string) :
  ffmpeg_convert w i (command directory_path filename) = Exited 0 out err ->
  body i filename c
  = ([Emit (progress_update
              ("Converting '" ++ filename ++ "' (" ++ str_of_nat (i + 1) ++ "/"
                 ++ str_of_nat total_videos ++ ")..."));
      Subprocess (command directory_path filename);
      Emit (progress_update
              ("Successfully converted '" ++ filename ++ "' to '"
                 ++ output_filename filename ++ "'."))],
     (Next, c + 1)).
Proof. intros H. unfold body, convert_one. rewrite H. reflexivity. Qed.

Lemma convert_one_nonzero (i : nat) (filename : string) (c : nat)
    (rc : Z) (out err : string) :
  ffmpeg_convert w i (command directory_path filename) = Exited rc out err ->
  rc <> 0%Z ->
  body i filename c
  = ([Emit (progress_update
              ("Converting '" ++ filename ++ "' (" ++ str_of_nat (i + 1) ++ "/"
                 ++ str_of_nat total_videos ++ ")..."));
      Subprocess (command directory_path filename);
      Emit (progress_update ("Error converting '" ++ filename ++ "': " ++ err));
      Emit (conversion_error ("Failed to convert '" ++ filename ++ "'. Error: " ++ err))],
     (Next, c)).
Proof.
  intros H Hrc. unfold body, convert_one. rewrite H. cbn [subprocess_run].
  apply Z.eqb_neq in Hrc. rewrite Hrc. reflexivity.
Qed.

Lemma convert_one_not_found (i : nat) (filename : string) (c : nat) :
  ffmpeg_convert w i (command directory_path filename) = NotFound ->
  body i filename c
  = ([Emit (progress_update
              ("Converting '" ++ filename ++ "' (" ++ str_of_nat (i + 1) ++ "/"
                 ++ str_of_nat total_videos ++ ")..."));
      Subprocess (command directory_path filename);
      Emit (conversion_error
              "FFmpeg command not found. Please ensure FFmpeg is installed and in your PATH.")],
     (Return, c)).
Proof. intros H. unfold body, convert_one. rewrite H. reflexivity. Qed.

(** When the program ran and its output is text, the body launches one
    subprocess, emits no finished signal, falls through, and counts the
    file when it exited with status zero. *)
Lemma convert_one_found (i : nat) (filename : string) (c : nat) :
  exited (ffmpeg_convert w i (command directory_path filename)) = true ->
  let r := body i filename c in
  fst (snd r) = Next
  /\ snd (snd r)
     = c + (if exits_zero (ffmpeg_convert w i (command directory_path filename))
            then 1 else 0)
  /\ launched (fst r) = [command directory_path filename]
  /\ filter is_finished (fst r) = [].
Proof.
  destruct (ffmpeg_convert w i (command directory_path filename))
    as [rc out err|rc| | |] eqn:E; try discriminate. intros _.
  cbn [exits_zero]. destruct (rc =? 0)%Z eqn:Hrc.
  - apply Z.eqb_eq in Hrc; subst rc.
    cbv zeta. rewrite (convert_one_zero _ _ _ _ _ E). repeat split.
  - apply Z.eqb_neq in Hrc.
    cbv zeta. rewrite (convert_one_nonzero _ _ _ _ _ _ E Hrc). cbn.
    repeat split. lia.
Qed.

(** One turn of the loop. *)
Lemma second_pass_cons (filename : string) (rest : list string) (i c : nat) :
  pass (filename :: rest) i c
  = let r := body i filename c in
    match fst (snd r) with
    | Next =>
        let p := pass rest (i + 1) (snd (snd r)) in
        (fst r ++ fst p, snd p)
    | _ => (fst r ++ [], snd r)
    end.
Proof.
  unfold pass, body. cbn [second_pass].
  destruct (convert_one w directory_path total_videos i filename c)
    as [t [[| |e] c']];
    unfold bind; cbn [fst snd ret].
  - now destruct (second_pass w directory_path total_videos rest (i + 1) c').
  - reflexivity.
  - reflexivity.
Qed.

End Pass.

(** The tail of a list from an index on: its head and its own tail. *)
Lemma skipn_cons {A : Type} (d : A) (l : list A) (i : nat) (x : A) (r : list A) :
  skipn i l = x :: r -> nth i l d = x /\ skipn (S i) l = r /\ i < List.length l.
Proof.
  revert l; induction i as [|i IH]; intros [|y l]; cbn [skipn]; try discriminate.
  - intros H. injection H as -> ->. cbn. repeat split. lia.
  - intros H. destruct (IH _ H) as [H1 [H2 H3]]. cbn [nth List.length].
    repeat split; [exact H1 | exact H2 | lia].
Qed.

Lemma launched_app (a b : list action) :
  launched (a ++ b) = launched a ++ launched b.
Proof.
  induction a as [|[s|d|c] a IH]; cbn [launched app]; try exact IH.
  - reflexivity.
  - now rewrite IH.
Qed.

Section Candidates.
Variable w : world.
Variable directory_path : string.
Variable total_videos : nat.
Variable files : list string.   (* video_files *)

Let pass := second_pass w directory_path total_videos.
Let answer := outcome w directory_path files.

Lemma converted_step (i n : nat) :
  converted w directory_path files i (S n)
  = (if exits_zero (answer i) then [i] else [])
      ++ converted w directory_path files (i + 1) n.
Proof.
  unfold converted, answer. cbn [seq filter]. rewrite Nat.add_1_r.
  now destruct (exits_zero (outcome w directory_path files i)).
Qed.

(** As long as the program runs and its output is text, the pass goes
    through the rest of the candidates: it launches one conversion per candidate, counts those
    that exit with status zero, and emits no finished signal itself. *)
Lemma second_pass_through (rest : list string) :
  forall i c,
    skipn i files = rest ->
    (forall j, i <= j < List.length files -> exited (answer j) = true) ->
    let p := pass rest i c in
    fst (snd p) = Next
    /\ snd (snd p)
       = c + List.length (converted w directory_path files i (List.length rest))
    /\ launched (fst p) = map (command directory_path) rest
    /\ filter is_finished (fst p) = [].
Proof.
  induction rest as [|f rest IH]; intros i c Hskip Hfound.
  - cbn. repeat split. lia.
  - destruct (skipn_cons "" _ _ _ _ Hskip) as [Hn [Hs Hlt]].
    assert (F : exited (ffmpeg_convert w i (command directory_path f)) = true).
    { rewrite <- Hn. apply (Hfound i). lia. }
    destruct (convert_one_found w directory_path total_videos i f c F)
      as [E1 [E2 [E3 E4]]].
    cbv zeta. unfold pass. rewrite second_pass_cons. cbv zeta. rewrite E1.
    rewrite <- Nat.add_1_r in Hs.
    destruct (IH (i + 1) (snd (snd (convert_one w directory_path total_videos i f c)))
                Hs) as [I1 [I2 [I3 I4]]].
    { intros j Hj. apply Hfound. lia. }
    cbn [fst snd]. fold pass. repeat split.
    + exact I1.
    + rewrite I2, E2. cbn [List.length]. rewrite converted_step, length_app.
      unfold answer, outcome. rewrite Hn.
      destruct (exits_zero (ffmpeg_convert w i (command directory_path f)));
        cbn [List.length]; lia.
    + rewrite launched_app, E3, I3. reflexivity.
    + rewrite filter_app, E4, I4. reflexivity.
Qed.

(** When the converter is not found for the candidate at index [k], the pass
    ends there with the error signal, having launched the conversions up to
    [k] and no other. *)
Lemma second_pass_stops (k : nat) (rest : list string) :
  forall i c,
    skipn i files = rest ->
    i <= k < List.length files ->
    (forall j, i <= j < k -> exited (answer j) = true) ->
    answer k = NotFound ->
    let p := pass rest i c in
    fst (snd p) = Return
    /\ launched (fst p) = map (command directory_path) (firstn (S k - i) rest)
    /\ filter is_finished (fst p) = []
    /\ exists t,
         fst p
         = t ++ [Subprocess (command directory_path (nth k files ""));
                 Emit (conversion_error
                         "FFmpeg command not found. Please ensure FFmpeg is installed and in your PATH.")].
Proof.
  induction rest as [|f rest IH]; intros i c Hskip Hk Hfound Hnf.
  - exfalso. assert (List.length (skipn i files) = 0) by now rewrite Hskip.
    rewrite length_skipn in H. lia.
  - destruct (skipn_cons "" _ _ _ _ Hskip) as [Hn [Hs Hlt]].
    cbv zeta. unfold pass. rewrite second_pass_cons. cbv zeta.
    destruct (Nat.eq_dec i k) as [->|Hik].
    + unfold answer, outcome in Hnf. rewrite Hn in Hnf.
      rewrite (convert_one_not_found _ _ _ _ _ _ Hnf). cbn [fst snd].
      replace (S k - k) with 1 by lia. rewrite Hn. repeat split.
      eexists [_]. reflexivity.
    + assert (F : exited (ffmpeg_convert w i (command directory_path f)) = true).
      { rewrite <- Hn. apply (Hfound i). lia. }
      destruct (convert_one_found w directory_path total_videos i f c F)
        as [E1 [E2 [E3 E4]]].
      rewrite E1. rewrite <- Nat.add_1_r in Hs.
      destruct (IH (i + 1) (snd (snd (convert_one w directory_path total_videos i f c)))
                  Hs) as [I1 [I2 [I3 [t I4]]]]; [lia | | exact Hnf |].
      { intros j Hj. apply Hfound. lia. }
      cbn [fst snd]. fold pass. repeat split.
      * exact I1.
      * rewrite launched_app, E3, I2.
        replace (S k - i) with (S (S k - (i + 1))) by lia. reflexivity.
      * rewrite filter_app, E4, I3. reflexivity.
      * rewrite I4. eexists. rewrite app_assoc. reflexivity.
Qed.


End Candidates.

End SecondPass.

(** ** The worker: candidates and output names, the statements *)

Module NamingSpec.
Import Py PyFacts OsPath OsPathFacts Worker Candidates RunFacts.

(** C6. For every directory listing, the candidate set is exactly the
    entries whose lowercased name ends with one of the seven extensions
    .mp4, .mkv, .avi, .mov, .webm, .flv, .wmv, in the order of the listing
    (it is the listing filtered by that test); the total count is the number
    of those entries, so no other entry appears in the set or the count.
    The worker binds them whenever the preflight check reports the converter
    available. *)
Theorem candidate_set_is_filtered_listing (w : world) (directory_path : string) :
  let entries := listed w directory_path in
  (forall name,
      is_video name = true <->
      exists e, In e [".mp4"; ".mkv"; ".avi"; ".mov"; ".webm"; ".flv"; ".wmv"]
                /\ exists p, lower name = (p ++ e)%string)
  /\ first_pass entries
     = (filter is_video entries, List.length (filter is_video entries))
  /\ option_map video_files (final w directory_path)
     = match snd (_is_ffmpeg_installed w) with
       | Returned true => Some (filter is_video entries)
       | _ => None
       end
  /\ option_map total_videos (final w directory_path)
     = match snd (_is_ffmpeg_installed w) with
       | Returned true => Some (List.length (filter is_video entries))
       | _ => None
       end.
Proof.
  intros entries. split; [|split].
  - intros name. apply endswith_iff.
  - apply first_pass_filter.
  - unfold final, entries.
    destruct (run_cases w directory_path)
      as [[e I]|[I|[I [[e L]|[[l [L F]]|N]]]]]; rewrite I.
    + rewrite (run_preflight_raises w directory_path e I). now split.
    + rewrite (run_unavailable w directory_path I). now split.
    + rewrite (run_listdir_raises w directory_path e I L),
        (listed_raised w directory_path e L). now split.
    + rewrite (run_empty w directory_path l I L F),
        (listed_returned w directory_path l L), F. now split.
    + rewrite (run_nonempty w directory_path I N). now split.
Qed.

(** C8, the counterexample. The entry [.mp4] is a candidate, and its output
    name is not a base name with the recognised extension replaced by
    [.gif]: that would be [.gif], and the worker derives [.mp4.gif]. *)
Lemma dotfile_extension_is_not_replaced :
  ~ (forall filename,
        is_video filename = true ->
        exists base ext,
          filename = (base ++ ext)%string
          /\ In (lower ext) video_extensions
          /\ output_filename filename = (base ++ ".gif")%string).
Proof.
  intros H. destruct (H ".mp4" eq_refl) as [base [ext [E [I O]]]].
  change (output_filename ".mp4") with (".mp4" ++ ".gif")%string in O.
  apply append_inj_r in O. subst base.
  injection E as E. subst ext.
  cbn in I. repeat (destruct I as [I|I]; [discriminate I|]). exact I.
Qed.

(** C8, as amended. A candidate file name without [/] is a base followed by
    an extension that lowers to a recognised one; its output name is the base
    with [.gif] in place of that extension when a character other than a
    dot comes before the extension, and the whole name with [.gif] appended
    when only dots (or nothing) come before it; input and output path are
    the two names behind one and the same directory prefix. A directory
    with clip.MP4 and notes.txt gives the candidate set [clip.MP4] and
    the output name clip.gif. *)
Theorem output_name_of_candidate (directory_path filename : string)
    (Hvideo : is_video filename = true)
    (Hname : contains "/" filename = false) :
  (exists base ext d,
      filename = (base ++ ext)%string
      /\ In (lower ext) video_extensions
      /\ output_filename filename
         = ((if all_are "." base then filename else base) ++ ".gif")%string
      /\ input_path directory_path filename = (d ++ filename)%string
      /\ output_path directory_path filename = (d ++ output_filename filename)%string
      /\ contains "/" (output_filename filename) = false)
  /\ fst (first_pass ["clip.MP4"; "notes.txt"]) = ["clip.MP4"]
  /\ output_filename "clip.MP4" = "clip.gif".
Proof.
  split; [|split; reflexivity].
  destruct (is_video_split filename Hvideo) as [base [x0 [E [I [Hd Hs]]]]].
  assert (O : output_filename filename
              = ((if all_are "." base then filename else base) ++ ".gif")%string).
  { unfold output_filename. rewrite E at 1.
    rewrite splitext_last_dot by (try rewrite <- E; assumption).
    rewrite <- E. now destruct (all_are "." base). }
  assert (S : contains "/" (output_filename filename) = false).
  { rewrite O, contains_append. apply orb_false_iff. split; [|reflexivity].
    destruct (all_are "." base); [exact Hname|].
    rewrite E, contains_append in Hname. now apply orb_false_iff in Hname. }
  exists base, (String "." x0),
    (if (directory_path =? "")%string || endswith1 directory_path "/"
     then directory_path else (directory_path ++ "/")%string).
  repeat split; try assumption.
  - unfold input_path. now apply join_name.
  - unfold output_path. now apply join_name.
Qed.

Lemma output_name_of_candidate_witness :
  (exists base ext d,
      "clip.MP4" = (base ++ ext)%string
      /\ In (lower ext) video_extensions
      /\ output_filename "clip.MP4"
         = ((if all_are "." base then "clip.MP4" else base) ++ ".gif")%string
      /\ input_path "/videos" "clip.MP4" = (d ++ "clip.MP4")%string
      /\ output_path "/videos" "clip.MP4" = (d ++ output_filename "clip.MP4")%string
      /\ contains "/" (output_filename "clip.MP4") = false)
  /\ fst (first_pass ["clip.MP4"; "notes.txt"]) = ["clip.MP4"]
  /\ output_filename "clip.MP4" = "clip.gif".
Proof.
  apply (output_name_of_candidate "/videos" "clip.MP4"); reflexivity.
Defined.

(** C9. An entry whose name starts with a dot, has no further dot, and ends
    (after lowering) with a recognised extension is selected as a candidate,
    and its output name is the whole name with [.gif] appended; so [.mp4]
    gives [.mp4.gif]. *)
Theorem dotfile_candidate_appends_gif (entries : list string) (filename rest : string)
    (Hentry : In filename entries)
    (Hdot : filename = String "." rest)
    (Hrest : contains "." rest = false)
    (Hext : exists e p, In e video_extensions /\ lower filename = (p ++ e)%string) :
  In filename (fst (first_pass entries))
  /\ output_filename filename = (filename ++ ".gif")%string
  /\ output_filename ".mp4" = ".mp4.gif".
Proof.
  split; [|split; [|reflexivity]].
  - rewrite first_pass_filter. cbn [fst]. apply filter_In. split; [exact Hentry|].
    unfold is_video. apply endswith_iff.
    destruct Hext as [e [p [He Hp]]]. eauto.
  - subst filename. now apply output_filename_dotfile.
Qed.

Lemma dotfile_candidate_appends_gif_witness :
  In ".MOV" (fst (first_pass ["a.txt"; ".MOV"]))
  /\ output_filename ".MOV" = ".MOV.gif"
  /\ output_filename ".mp4" = ".mp4.gif".
Proof.
  apply (dotfile_candidate_appends_gif ["a.txt"; ".MOV"] ".MOV" "MOV").
  - simpl. right. left. reflexivity.
  - reflexivity.
  - reflexivity.
  - exists ".mov", "". split; [|reflexivity].
    simpl. right. right. right. left. reflexivity.
Defined.

End NamingSpec.

(** ** The worker: the runs, the statements *)

Module RunSpec.
Import Py PyFacts OsPath Worker Candidates RunFacts SecondPass.


Lemma converted_all (w : world) (directory_path : string) (files : list string)
    (i n : nat) :
  (forall j, i <= j < i + n -> exits_zero (outcome w directory_path files j) = true) ->
  converted w directory_path files i n = seq i n.
Proof.
  revert i; induction n as [|n IH]; intros i H; [reflexivity|].
  unfold converted. cbn [seq filter]. rewrite H by lia.
  f_equal. apply IH. intros j Hj. apply H. lia.
Qed.

(** The run over a directory with clip.MP4 and notes.txt. *)
Example one_video_run :
  run Scenarios.one_video "/videos"
  = ([Subprocess version_command;
      Listdir "/videos";
      Emit (progress_update "Found 1 video(s). Starting conversion...");
      Emit (progress_update "Converting 'clip.MP4' (1/1)...");
      Subprocess ["ffmpeg"; "-i"; "/videos/clip.MP4";
                  "-vf"; "fps=10,scale=320:-1:flags=lanczos";
                  "-y"; "/videos/clip.gif"];
      Emit (progress_update "Successfully converted 'clip.MP4' to 'clip.gif'.");
      Emit (conversion_finished
              "Conversion process completed. Converted 1 of 1 videos.")],
     (Next, Some {| converted_count := 1; total_videos := 1;
                    video_files := ["clip.MP4"] |})).
Proof. reflexivity. Qed.

(** The run over a directory that is gone when it is listed: the exception
    of [os.listdir] leaves the run, no signal is emitted. *)
Example unlistable_directory_run :
  run Scenarios.no_directory "/videos"
  = ([Subprocess version_command; Listdir "/videos"],
     (Raise FileNotFoundError,
      Some {| converted_count := 0; total_videos := 0; video_files := [] |})).
Proof. reflexivity. Qed.



(** C7. When the preflight check reports the converter unavailable, the
    run is the version query followed by one error signal that describes
    the missing dependency: no directory is listed and no conversion is
    launched. *)
Theorem unavailable_converter_stops_run (w : world) (directory_path : string)
    (Hpre : snd (_is_ffmpeg_installed w) = Returned false) :
  let t := trace w directory_path in
  t = [Subprocess version_command;
       Emit (conversion_error
               ("FFmpeg is not installed or not in your system's PATH." ++ LF
                  ++ "Please install FFmpeg to use this converter."))]
  /\ count is_error t = 1
  /\ count is_listdir t = 0
  /\ launched t = [version_command]
  /\ List.length t = 2.
Proof.
  cbv zeta. unfold trace. rewrite (run_unavailable w directory_path Hpre).
  repeat split.
Qed.

(** C4, the counterexample. In a run over a directory without videos the
    one finished signal carries no count: its text holds no 0. *)
Lemma empty_run_finished_carries_no_count :
  ~ (forall w d entries,
        snd (_is_ffmpeg_installed w) = Returned true ->
        listdir w d = Returned entries ->
        filter is_video entries = [] ->
        exists m,
          filter is_finished (trace w d) = [Emit (conversion_finished m)]
          /\ Observe.carries_counts m 0 0).
Proof.
  intros H.
  destruct (H Scenarios.no_videos "/videos" ["notes.txt"; "mp4"]
              eq_refl eq_refl eq_refl) as [m [F [a [b [c C]]]]].
  injection F as <-.
  apply (f_equal (contains "0")) in C.
  rewrite !contains_append in C. cbn in C.
  rewrite orb_true_r in C. discriminate C.
Qed.

(** C4, as amended. A run whose candidate set is empty (the preflight check
    passed and no entry of the listing is a video) emits exactly one
    progress signal and exactly one finished signal, whose text is
    "Conversion process completed (no videos to convert)." and holds no
    count; the converted count and the total of the worker are both 0, and
    no subprocess is launched but the version query of the preflight
    check. *)
Theorem empty_candidate_set (w : world) (directory_path : string)
    (entries : list string)
    (Hpre : snd (_is_ffmpeg_installed w) = Returned true)
    (Hlist : listdir w directory_path = Returned entries)
    (Hempty : filter is_video entries = []) :
  let t := trace w directory_path in
  t = [Subprocess version_command;
       Listdir directory_path;
       Emit (progress_update "No video files found in the selected directory.");
       Emit (conversion_finished "Conversion process completed (no videos to convert).")]
  /\ count is_progress t = 1
  /\ count is_finished t = 1
  /\ count is_error t = 0
  /\ final w directory_path
     = Some {| converted_count := 0; total_videos := 0; video_files := [] |}
  /\ ended w directory_path = Return
  /\ launched t = [version_command].
Proof.
  cbv zeta. unfold trace, final, ended.
  rewrite (run_empty w directory_path entries Hpre Hlist Hempty).
  repeat split.
Qed.

Lemma unavailable_converter_stops_run_witness :
  let t := trace Scenarios.broken "/videos" in
  t = [Subprocess version_command;
       Emit (conversion_error
               ("FFmpeg is not installed or not in your system's PATH." ++ LF
                  ++ "Please install FFmpeg to use this converter."))]
  /\ count is_error t = 1
  /\ count is_listdir t = 0
  /\ launched t = [version_command]
  /\ List.length t = 2.
Proof.
  apply (unavailable_converter_stops_run Scenarios.broken "/videos"). reflexivity.
Defined.

Lemma empty_candidate_set_witness :
  let t := trace Scenarios.no_videos "/videos" in
  t = [Subprocess version_command;
       Listdir "/videos";
       Emit (progress_update "No video files found in the selected directory.");
       Emit (conversion_finished "Conversion process completed (no videos to convert).")]
  /\ count is_progress t = 1
  /\ count is_finished t = 1
  /\ count is_error t = 0
  /\ final Scenarios.no_videos "/videos"
     = Some {| converted_count := 0; total_videos := 0; video_files := [] |}
  /\ ended Scenarios.no_videos "/videos" = Return
  /\ launched t = [version_command].
Proof.
  apply (empty_candidate_set Scenarios.no_videos "/videos" ["notes.txt"; "mp4"]);
    reflexivity.
Defined.

(** C5. A run that goes through a non-empty candidate set (the conversion
    of every candidate runs, with output that is text, so that the converter
    does not disappear and no exception leaves the loop) emits exactly one
    finished signal, as its last action: "Conversion process completed. Converted X of Y
    videos." with X the number of candidates whose conversion exited with
    status zero and Y the number of candidates; X and Y are the final values
    of the two counters, and X = Y when every conversion exits with zero. *)
Theorem finished_reports_converted_of_total (w : world) (directory_path : string)
    (Hpre : snd (_is_ffmpeg_installed w) = Returned true)
    (Hsome : filter is_video (listed w directory_path) <> [])
    (Hfound : forall i,
        i < List.length (filter is_video (listed w directory_path)) ->
        exited (outcome w directory_path
                  (filter is_video (listed w directory_path)) i) = true) :
  let files := filter is_video (listed w directory_path) in
  let Y := List.length files in
  let X := List.length (converted w directory_path files 0 Y) in
  (exists t,
      trace w directory_path
      = t ++ [Emit (conversion_finished
                      ("Conversion process completed. Converted " ++ str_of_nat X
                         ++ " of " ++ str_of_nat Y ++ " videos."))]
      /\ filter is_finished t = [])
  /\ count is_finished (trace w directory_path) = 1
  /\ option_map converted_count (final w directory_path) = Some X
  /\ option_map total_videos (final w directory_path) = Some Y
  /\ ((forall i, i < Y -> exits_zero (outcome w directory_path files i) = true) ->
      X = Y).
Proof.
  intros files Y X. unfold trace, count, final.
  rewrite (run_nonempty w directory_path Hpre Hsome). cbv zeta. fold files. fold Y.
  destruct (second_pass_through w directory_path Y files files 0 0 eq_refl)
    as [E1 [E2 [_ E4]]].
  { intros j Hj. apply Hfound. fold files. lia. }
  rewrite E1, E2. cbn [fst snd option_map converted_count total_videos Nat.add].
  fold Y. fold X. repeat split.
  - eexists. split; [rewrite app_assoc; reflexivity|].
    rewrite filter_app, E4. reflexivity.
  - rewrite !filter_app, E4. reflexivity.
  - intros H. unfold X. rewrite converted_all, length_seq; [reflexivity|].
    intros j Hj. apply H. lia.
Qed.

Lemma finished_reports_converted_of_total_witness :
  let w := Scenarios.first_fails in
  let files := ["a.mp4"; "b.mp4"] in
  (exists t,
      trace w "/videos"
      = t ++ [Emit (conversion_finished
                      "Conversion process completed. Converted 1 of 2 videos.")]
      /\ filter is_finished t = [])
  /\ count is_finished (trace w "/videos") = 1
  /\ option_map converted_count (final w "/videos") = Some 1
  /\ option_map total_videos (final w "/videos") = Some 2
  /\ ((forall i, i < 2 -> exits_zero (outcome w "/videos" files i) = true) ->
      1 = 2).
Proof.
  apply (finished_reports_converted_of_total Scenarios.first_fails "/videos").
  - reflexivity.
  - discriminate.
  - intros [|[|i]] Hi; [reflexivity | reflexivity | simpl in Hi; lia].
Defined.

(** C3. When the converter is found by the preflight check, the conversions
    of the candidates before index [k] run (with output that is text: the
    run reaches [k]), and the converter is not found for the candidate at [k],
    the run ends with that subprocess and an error signal saying that the
    command was not found: the conversions launched are those of the
    candidates up to [k], and no finished signal is emitted. *)
Theorem converter_lost_mid_run (w : world) (directory_path : string) (k : nat)
    (Hpre : snd (_is_ffmpeg_installed w) = Returned true)
    (Hk : k < List.length (filter is_video (listed w directory_path)))
    (Hfound : forall j,
        j < k ->
        exited (outcome w directory_path
                  (filter is_video (listed w directory_path)) j) = true)
    (Hlost : outcome w directory_path
               (filter is_video (listed w directory_path)) k = NotFound) :
  let files := filter is_video (listed w directory_path) in
  (exists t,
      trace w directory_path
      = t ++ [Subprocess (command directory_path (nth k files ""));
              Emit (conversion_error
                      "FFmpeg command not found. Please ensure FFmpeg is installed and in your PATH.")])
  /\ launched (trace w directory_path)
     = version_command :: map (command directory_path) (firstn (S k) files)
  /\ count is_finished (trace w directory_path) = 0.
Proof.
  intros files. unfold trace, count.
  assert (Hsome : filter is_video (listed w directory_path) <> []).
  { intros E. rewrite E in Hk. simpl in Hk. lia. }
  rewrite (run_nonempty w directory_path Hpre Hsome). cbv zeta. fold files.
  destruct (second_pass_stops w directory_path (List.length files) files k files 0 0
              eq_refl) as [E1 [E2 [E3 [t E4]]]].
  { fold files in Hk. lia. }
  { intros j Hj. apply Hfound. lia. }
  { exact Hlost. }
  rewrite E1. cbn [fst]. rewrite app_nil_r. repeat split.
  - rewrite E4. eexists. rewrite app_assoc. reflexivity.
  - rewrite launched_app, E2, Nat.sub_0_r. reflexivity.
  - rewrite filter_app, E3. reflexivity.
Qed.

Lemma converter_lost_mid_run_witness :
  let w := Scenarios.vanishes in
  (exists t,
      trace w "/videos"
      = t ++ [Subprocess (command "/videos" "b.mkv");
              Emit (conversion_error
                      "FFmpeg command not found. Please ensure FFmpeg is installed and in your PATH.")])
  /\ launched (trace w "/videos")
     = [version_command; command "/videos" "a.mp4"; command "/videos" "b.mkv"]
  /\ count is_finished (trace w "/videos") = 0.
Proof.
  apply (converter_lost_mid_run Scenarios.vanishes "/videos" 1).
  - reflexivity.
  - simpl. lia.
  - intros [|j] Hj; [reflexivity | lia].
  - reflexivity.
Defined.




End RunSpec.

(** ** The shell and its workers *)

Module ShellSpec.
Import Worker Shell System.

Lemma browse_keeps (d : string) (a : shell) :
  button_has_directory a -> button_has_directory (_browse_directory d a).
Proof.
  unfold button_has_directory, _browse_directory. intros _.
  destruct (truthy d) eqn:E; cbn; [now intros _ | discriminate].
Qed.

Lemma start_keeps (a : shell) :
  button_has_directory a -> button_has_directory (fst (_start_conversion a)).
Proof.
  unfold button_has_directory, _start_conversion. intros H.
  destruct (truthy (directory_path a)) eqn:E; cbn; intros B.
  - discriminate B.
  - discriminate (H B).
Qed.

Lemma slot_keeps (sig : signal) (a : shell) :
  button_has_directory a -> button_has_directory (slot sig a).
Proof.
  unfold button_has_directory. intros H.
  destruct sig as [m|m|m]; cbn; [exact H | |];
    destruct (truthy (directory_path a)) eqn:E; auto.
Qed.

Lemma step_keeps (w : world) (e : event) (s s' : system) :
  step w e s = Some s' ->
  button_has_directory (gui s) -> button_has_directory (gui s').
Proof.
  destruct e as [d| |n|]; cbn [step].
  - destruct (browse_button (gui s)); [|discriminate].
    intros H; injection H as <-. apply browse_keeps.
  - destruct (convert_button (gui s)); [|discriminate].
    pose proof (start_keeps (gui s)) as K.
    destruct (_start_conversion (gui s)) as [g started].
    intros H; injection H as <-. exact K.
  - destruct (nth_error (threads s) n) as [[|a rest]|]; try discriminate.
    intros H; injection H as <-. exact (fun x => x).
  - destruct (queue s) as [|sig q]; [discriminate|].
    intros H; injection H as <-. apply slot_keeps.
Qed.

Lemma exec_keeps (w : world) (es : list event) :
  forall s0 s,
    exec w es s0 = Some s ->
    button_has_directory (gui s0) -> button_has_directory (gui s).
Proof.
  induction es as [|e es IH]; intros s0 s; cbn [exec].
  - intros H; injection H as <-. exact (fun x => x).
  - destruct (step w e s0) as [s1|] eqn:S1; [|discriminate].
    intros H K0. apply (IH s1 s H). exact (step_keeps w e s0 s1 S1 K0).
Qed.

(** In every state the shell can reach, the convert button is disabled when
    no directory is stored. *)
Lemma no_directory_no_start (w : world) (s : system) :
  reachable w s ->
  directory_path (gui s) = "" -> convert_button (gui s) = false.
Proof.
  intros [es R] D.
  assert (K : button_has_directory (gui s)).
  { apply (exec_keeps w es init s R). intros B. discriminate B. }
  destruct (convert_button (gui s)) eqn:B; [|reflexivity].
  specialize (K B). rewrite D in K. discriminate K.
Qed.

(** C1, the code at the failing input. A directory with two videos, the
    conversion of the first failing: once the shell has handled the error
    signal of the first file, a directory is stored, the worker is still
    active (the second file is yet to be converted) and the convert button
    is enabled; clicking it starts a second worker next to the first. *)
Theorem start_enabled_while_worker_active :
  exists s,
    exec Scenarios.first_fails Scenarios.failure_handled init = Some s
    /\ directory_path (gui s) = "/videos"
    /\ active s = 1
    /\ launched (concat (threads s)) = [command "/videos" "b.mp4"]
    /\ convert_button (gui s) = true
    /\ option_map active (step Scenarios.first_fails Start s) = Some 2.
Proof.
  eexists. split; [vm_compute; reflexivity|]. repeat split.
Qed.

End ShellSpec.

(** ** The worker: what holds of every run *)

Module RunExtra.
Import Py PyFacts OsPath Worker Candidates RunFacts SecondPass Observe.

Lemma signals_app (a b : list action) : signals (a ++ b) = signals a ++ signals b.
Proof.
  induction a as [|[x|d|c] a IH]; cbn [app signals]; try exact IH.
  - reflexivity.
  - now rewrite IH.
Qed.

(** The three ways the body of the loop goes, by what the converter
    answers. *)
Lemma convert_one_cases (w : world) (d : string) (total i : nat) (f : string) (c : nat) :
  let pre := [Emit (progress_update
                      ("Converting '" ++ f ++ "' (" ++ str_of_nat (i + 1) ++ "/"
                         ++ str_of_nat total ++ ")..."));
              Subprocess (command d f)] in
  (exists t c',
      convert_one w d total i f c = (pre ++ t, (Next, c'))
      /\ exited (ffmpeg_convert w i (command d f)) = true
      /\ launched t = [] /\ filter is_finished t = [] /\ filter is_listdir t = []
      /\ c <= c' <= c + 1
      /\ List.length (filter is_error t) + c' = c + 1
      /\ (forall rc out err,
             ffmpeg_convert w i (command d f) = Exited rc out err -> rc = 0%Z ->
             forallb (fun y => negb (is_terminal y)) (signals t) = true))
  \/ (convert_one w d total i f c
      = (pre ++ [Emit (conversion_error
                         "FFmpeg command not found. Please ensure FFmpeg is installed and in your PATH.")],
         (Return, c))
      /\ ffmpeg_convert w i (command d f) = NotFound)
  \/ (exists e,
        convert_one w d total i f c = (pre, (Raise e, c))
        /\ exited (ffmpeg_convert w i (command d f)) = false).
Proof.
  cbv zeta. unfold convert_one.
  destruct (ffmpeg_convert w i (command d f)) as [rc out err|rc| | |] eqn:E;
    cbn [subprocess_run].
  - left. destruct (rc =? 0)%Z eqn:Hrc.
    + eexists [_], _. repeat split; try reflexivity; lia.
    + eexists [_; _], _. repeat split; try reflexivity; try (cbn; lia).
      intros rc' out' err' H Z0. injection H as <- _ _. subst rc.
      discriminate Hrc.
  - right. right. eexists. split; reflexivity.
  - right. left. split; reflexivity.
  - right. right. eexists. split; reflexivity.
  - right. right. eexists. split; reflexivity.
Qed.

(** The second pass whatever the converter answers: it launches the
    conversions of the first [m] candidates it is given, emits no finished
    signal and lists no directory, adds at most [m] to the counter, ends by
    [return] only behind the error signal of the missing command, and is left
    by an exception only right after the subprocess that raised it. *)
Lemma second_pass_any (w : world) (d : string) (total : nat) (rest : list string) :
  forall i c,
    let p := second_pass w d total rest i c in
    exists m,
      m <= List.length rest
      /\ launched (fst p) = map (command d) (firstn m rest)
      /\ filter is_finished (fst p) = []
      /\ filter is_listdir (fst p) = []
      /\ c <= snd (snd p) <= c + m
      /\ (fst (snd p) = Next -> m = List.length rest)
      /\ (fst (snd p) = Return ->
          exists t,
            fst p
            = t ++ [Emit (conversion_error
                            "FFmpeg command not found. Please ensure FFmpeg is installed and in your PATH.")])
      /\ (forall e, fst (snd p) = Raise e ->
                    exists t cmd, fst p = t ++ [Subprocess cmd]).
Proof.
  induction rest as [|f rest IH]; intros i c.
  - exists 0. cbn. repeat split; try lia; discriminate.
  - cbv zeta. rewrite second_pass_cons. cbv zeta.
    destruct (convert_one_cases w d total i f c)
      as [[t [c' [-> [_ [B1 [B2 [B3 [B4 _]]]]]]]]|[[-> _]|[e [-> _]]]];
      cbn [fst snd].
    + destruct (IH (i + 1) c') as [m [M1 [M2 [M3 [M4 [M5 [M6 [M7 M8]]]]]]]].
      exists (S m). cbn [List.length firstn map]. repeat split.
      * lia.
      * rewrite !launched_app, B1, M2. reflexivity.
      * rewrite !filter_app, B2, M3. reflexivity.
      * rewrite !filter_app, B3, M4. reflexivity.
      * lia.
      * lia.
      * intros N. now rewrite (M6 N).
      * intros R. destruct (M7 R) as [t' T]. rewrite T.
        eexists. rewrite !app_assoc. reflexivity.
      * intros e R. destruct (M8 e R) as [t' [cmd T]]. rewrite T.
        eexists _, cmd. rewrite !app_assoc. reflexivity.
    + exists 1. cbn [List.length firstn map]. repeat split; try lia.
      * discriminate.
      * intros _. eexists. rewrite app_nil_r. reflexivity.
      * discriminate.
    + exists 1. cbn [List.length firstn map]. repeat split; try lia.
      * discriminate.
      * discriminate.
      * intros e' _. eexists [_], _. rewrite app_nil_r. reflexivity.
Qed.

(** When no conversion exits with a status other than zero, the second pass
    emits progress signals only, up to the error signal of a [return]. *)
Lemma second_pass_clean (w : world) (d : string) (total : nat) (rest : list string) :
  no_file_fails w ->
  forall i c,
    let p := second_pass w d total rest i c in
    exists t,
      forallb (fun y => negb (is_terminal y)) (signals t) = true
      /\ ((fst (snd p) = Next /\ fst p = t)
          \/ (fst (snd p) = Return
              /\ exists m, fst p = t ++ [Emit (conversion_error m)])
          \/ (exists e, fst (snd p) = Raise e /\ fst p = t)).
Proof.
  intros NF. induction rest as [|f rest IH]; intros i c.
  - exists []. split; [reflexivity|]. left. now split.
  - cbv zeta. rewrite second_pass_cons. cbv zeta.
    destruct (convert_one_cases w d total i f c)
      as [[t [c' [-> [X [_ [_ [_ [_ [_ B]]]]]]]]]|[[-> _]|[e [-> _]]]];
      cbn [fst snd].
    + assert (C0 : forallb (fun y => negb (is_terminal y)) (signals t) = true).
      { destruct (ffmpeg_convert w i (command d f)) as [rc out err| | | |] eqn:E;
          try discriminate X.
        exact (B rc out err eq_refl (NF _ _ _ _ _ E)). }
      destruct (IH (i + 1) c') as [t' [C [[N T]|[[R [m T]]|[e [R T]]]]]];
        cbv zeta in *.
      * match goal with
        | |- context [(?pre ++ t) ++ fst _ = _] => exists ((pre ++ t) ++ t')
        end.
        split.
        { rewrite !signals_app, !forallb_app, C0, C. reflexivity. }
        left. rewrite N, T. now split.
      * match goal with
        | |- context [(?pre ++ t) ++ fst _ = _] => exists ((pre ++ t) ++ t')
        end.
        split.
        { rewrite !signals_app, !forallb_app, C0, C. reflexivity. }
        right. left. split; [exact R|]. exists m. rewrite T.
        now rewrite !app_assoc.
      * match goal with
        | |- context [(?pre ++ t) ++ fst _ = _] => exists ((pre ++ t) ++ t')
        end.
        split.
        { rewrite !signals_app, !forallb_app, C0, C. reflexivity. }
        right. right. exists e. rewrite R, T. now split.
    + match goal with
      | |- context [(?pre ++ [Emit (conversion_error ?m)]) ++ []] => exists pre
      end.
      split; [reflexivity|]. right. left. split; [reflexivity|].
      eexists. rewrite app_nil_r. reflexivity.
    + match goal with
      | |- context [?pre ++ [] = _] => exists pre
      end.
      split; [reflexivity|]. right. right. exists e. split; [reflexivity|].
      now rewrite app_nil_r.
Qed.

(** Then a run holds no terminal signal but, possibly, one as its last
    action. *)
Lemma trace_clean (w : world) (directory_path : string) :
  no_file_fails w ->
  (exists t x,
      trace w directory_path = t ++ [Emit x]
      /\ is_terminal x = true
      /\ forallb (fun y => negb (is_terminal y)) (signals t) = true)
  \/ forallb (fun y => negb (is_terminal y)) (signals (trace w directory_path)) = true.
Proof.
  intros NF. unfold trace.
  destruct (run_cases w directory_path)
    as [[e I]|[I|[I [[e L]|[[l [L F]]|N]]]]].
  - rewrite (run_preflight_raises w directory_path e I). now right.
  - rewrite (run_unavailable w directory_path I). left.
    exists [Subprocess version_command]. eexists. now repeat split.
  - rewrite (run_listdir_raises w directory_path e I L). now right.
  - rewrite (run_empty w directory_path l I L F). left.
    exists [Subprocess version_command; Listdir directory_path;
            Emit (progress_update "No video files found in the selected directory.")].
    eexists. now repeat split.
  - rewrite (run_nonempty w directory_path I N). cbv zeta. cbn [fst].
    destruct (second_pass_clean w directory_path
                (List.length (filter is_video (listed w directory_path)))
                (filter is_video (listed w directory_path)) NF 0 0)
      as [t [C [[N' T]|[[R [m T]]|[e [R T]]]]]]; cbv zeta in *.
    + rewrite N', T. left.
      match goal with
      | |- context [?pre ++ t ++ [Emit ?x]] => exists (pre ++ t), x
      end.
      rewrite app_assoc. split; [reflexivity|]. split; [reflexivity|].
      rewrite signals_app, forallb_app, C. reflexivity.
    + rewrite R, T, app_nil_r. left.
      match goal with
      | |- context [?pre ++ t ++ [Emit ?x]] => exists (pre ++ t), x
      end.
      rewrite app_assoc. split; [reflexivity|]. split; [reflexivity|].
      rewrite signals_app, forallb_app, C. reflexivity.
    + rewrite R, T, app_nil_r. right.
      rewrite signals_app, forallb_app, C. reflexivity.
Qed.

(** How a run ends: with a terminal signal, or by an exception right after
    the call that raised it. *)
Lemma trace_last (w : world) (directory_path : string) :
  ((forall e, ended w directory_path <> Raise e)
   /\ exists t s,
        trace w directory_path = t ++ [Emit s] /\ is_terminal s = true)
  \/ (exists e t a,
        ended w directory_path = Raise e
        /\ trace w directory_path = t ++ [a]
        /\ (a = Listdir directory_path \/ exists cmd, a = Subprocess cmd)).
Proof.
  unfold trace, ended.
  destruct (run_cases w directory_path)
    as [[e I]|[I|[I [[e L]|[[l [L F]]|N]]]]].
  - rewrite (run_preflight_raises w directory_path e I). right.
    exists e, [], (Subprocess version_command). repeat split. right. eauto.
  - rewrite (run_unavailable w directory_path I). left.
    split; [discriminate|]. eexists [_], _. now split.
  - rewrite (run_listdir_raises w directory_path e I L). right.
    exists e, [Subprocess version_command], (Listdir directory_path).
    repeat split. now left.
  - rewrite (run_empty w directory_path l I L F). left.
    split; [discriminate|]. eexists [_; _; _], _. now split.
  - rewrite (run_nonempty w directory_path I N). cbv zeta. cbn [fst snd].
    destruct (second_pass_any w directory_path
                (List.length (filter is_video (listed w directory_path)))
                (filter is_video (listed w directory_path)) 0 0)
      as [m [_ [_ [_ [_ [_ [_ [M7 M8]]]]]]]].
    cbv zeta in M7, M8.
    destruct (fst (snd (second_pass _ _ _ _ 0 0))) as [| |e].
    + left. split; [discriminate|].
      eexists (_ ++ _), _. rewrite app_assoc. now split.
    + left. split; [discriminate|].
      destruct (M7 eq_refl) as [t T]. rewrite T, app_nil_r.
      eexists (_ ++ t), _. rewrite app_assoc. now split.
    + right. destruct (M8 e eq_refl) as [t [cmd T]]. rewrite T, app_nil_r.
      exists e. eexists (_ ++ t), _. rewrite app_assoc.
      repeat split. right. eauto.
Qed.

Lemma trace_last_terminal (w : world) (directory_path : string) :
  (forall e, ended w directory_path <> Raise e) ->
  exists t s,
    trace w directory_path = t ++ [Emit s] /\ is_terminal s = true.
Proof.
  intros H. destruct (trace_last w directory_path) as [[_ T]|[e [t [a [E _]]]]].
  - exact T.
  - now destruct (H e).
Qed.

(** X1. A run ends in one of two ways. Either its last action is the
    emission of a terminal signal, finished or error; or an exception leaves
    it (raised by the version query, by the listing of the directory or by a
    conversion, and handled nowhere in the worker): then its last action is
    the call that raised, a listing or a subprocess, and no terminal signal
    closes the run. *)
Theorem run_ends_with_signal_or_exception (w : world) (directory_path : string) :
  ((forall e, ended w directory_path <> Raise e)
   /\ exists t s,
        trace w directory_path = t ++ [Emit s] /\ is_terminal s = true)
  \/ (exists e t a,
        ended w directory_path = Raise e
        /\ trace w directory_path = t ++ [a]
        /\ (a = Listdir directory_path \/ exists cmd, a = Subprocess cmd)).
Proof. apply trace_last. Qed.

(** X2. A run emits at most one finished signal, and nothing after it: the
    trace is free of finished signals, or it is such a trace followed by one
    finished signal. *)
Theorem finished_only_once_and_last (w : world) (directory_path : string) :
  exists t,
    filter is_finished t = []
    /\ (trace w directory_path = t
        \/ exists m, trace w directory_path = t ++ [Emit (conversion_finished m)]).
Proof.
  unfold trace.
  destruct (run_cases w directory_path)
    as [[e I]|[I|[I [[e L]|[[l [L F]]|N]]]]].
  - exists (fst (run w directory_path)).
    rewrite (run_preflight_raises w directory_path e I). split; [reflexivity | now left].
  - exists (fst (run w directory_path)).
    rewrite (run_unavailable w directory_path I). split; [reflexivity | now left].
  - exists (fst (run w directory_path)).
    rewrite (run_listdir_raises w directory_path e I L).
    split; [reflexivity | now left].
  - rewrite (run_empty w directory_path l I L F).
    exists [Subprocess version_command; Listdir directory_path;
            Emit (progress_update "No video files found in the selected directory.")].
    split; [reflexivity|]. right. eexists. reflexivity.
  - rewrite (run_nonempty w directory_path I N). cbv zeta. cbn [fst].
    destruct (second_pass_any w directory_path
                (List.length (filter is_video (listed w directory_path)))
                (filter is_video (listed w directory_path)) 0 0)
      as [m [_ [_ [M3 _]]]].
    cbv zeta in M3.
    match goal with
    | |- context [?pre ++ fst ?p ++ _] => exists (pre ++ fst p)
    end.
    split.
    + rewrite filter_app, M3. reflexivity.
    + destruct (fst (snd (second_pass _ _ _ _ 0 0))).
      * right. eexists. rewrite app_assoc. reflexivity.
      * left. now rewrite app_nil_r.
      * left. now rewrite app_nil_r.
Qed.

(** X3. The subprocesses of a run are the version query and then the
    conversions of the first [m] candidates, in the order of the listing,
    for some [m]: no candidate is converted twice, none is skipped, none is
    converted before an earlier one. *)
Theorem conversions_follow_the_listing (w : world) (directory_path : string) :
  exists m,
    m <= List.length (filter is_video (listed w directory_path))
    /\ launched (trace w directory_path)
       = version_command
           :: map (command directory_path)
                (firstn m (filter is_video (listed w directory_path))).
Proof.
  unfold trace.
  destruct (run_cases w directory_path)
    as [[e I]|[I|[I [[e L]|[[l [L F]]|N]]]]].
  - rewrite (run_preflight_raises w directory_path e I). exists 0.
    split; [lia|]. now rewrite firstn_0.
  - rewrite (run_unavailable w directory_path I). exists 0.
    split; [lia|]. now rewrite firstn_0.
  - rewrite (run_listdir_raises w directory_path e I L). exists 0.
    split; [lia|]. now rewrite firstn_0.
  - rewrite (run_empty w directory_path l I L F). exists 0.
    split; [lia|]. now rewrite firstn_0.
  - rewrite (run_nonempty w directory_path I N). cbv zeta. cbn [fst].
    destruct (second_pass_any w directory_path
                (List.length (filter is_video (listed w directory_path)))
                (filter is_video (listed w directory_path)) 0 0)
      as [m [M1 [M2 _]]].
    cbv zeta in M2. exists m. split; [exact M1|].
    cbn [app launched]. rewrite launched_app, M2.
    destruct (fst (snd (second_pass _ _ _ _ 0 0))); cbn [launched];
      now rewrite app_nil_r.
Qed.

(** X4. In every run that binds its counters, however it ends, the converted
    count is at most the total, and the total is the number of
    candidates. *)
Theorem converted_at_most_total (w : world) (directory_path : string) (l : locals)
    (Hrun : final w directory_path = Some l) :
  converted_count l <= total_videos l
  /\ total_videos l = List.length (video_files l).
Proof.
  unfold final in Hrun.
  destruct (run_cases w directory_path)
    as [[e I]|[I|[I [[e L]|[[l0 [L F]]|N]]]]].
  - rewrite (run_preflight_raises w directory_path e I) in Hrun. discriminate Hrun.
  - rewrite (run_unavailable w directory_path I) in Hrun. discriminate Hrun.
  - rewrite (run_listdir_raises w directory_path e I L) in Hrun.
    injection Hrun as <-. cbn. lia.
  - rewrite (run_empty w directory_path l0 I L F) in Hrun.
    injection Hrun as <-. cbn. lia.
  - rewrite (run_nonempty w directory_path I N) in Hrun.
    injection Hrun as <-. cbn [converted_count total_videos video_files].
    destruct (second_pass_any w directory_path
                (List.length (filter is_video (listed w directory_path)))
                (filter is_video (listed w directory_path)) 0 0)
      as [m [M1 [_ [_ [_ [M5 _]]]]]].
    cbv zeta in M5. split; [lia|reflexivity].
Qed.

Lemma converted_at_most_total_witness :
  let l := {| converted_count := 1; total_videos := 2;
              video_files := ["a.mp4"; "b.mp4"] |} in
  converted_count l <= total_videos l
  /\ total_videos l = List.length (video_files l).
Proof.
  apply (converted_at_most_total Scenarios.first_fails "/videos"). reflexivity.
Defined.

(** X5. The directory is listed at most once, and it is the directory the
    worker was made for: the candidate set is fixed by that one listing. *)
Theorem directory_listed_once (w : world) (directory_path : string) :
  filter is_listdir (trace w directory_path)
  = match snd (_is_ffmpeg_installed w) with
    | Returned true => [Listdir directory_path]
    | _ => []
    end.
Proof.
  unfold trace.
  destruct (run_cases w directory_path)
    as [[e I]|[I|[I [[e L]|[[l [L F]]|N]]]]]; rewrite I.
  - now rewrite (run_preflight_raises w directory_path e I).
  - now rewrite (run_unavailable w directory_path I).
  - now rewrite (run_listdir_raises w directory_path e I L).
  - now rewrite (run_empty w directory_path l I L F).
  - rewrite (run_nonempty w directory_path I N). cbv zeta. cbn [fst].
    destruct (second_pass_any w directory_path
                (List.length (filter is_video (listed w directory_path)))
                (filter is_video (listed w directory_path)) 0 0)
      as [m [_ [_ [_ [M4 _]]]]].
    cbv zeta in M4. cbn [app filter is_listdir]. rewrite filter_app, M4.
    now destruct (fst (snd (second_pass _ _ _ _ 0 0))).
Qed.

(** With every conversion running and its output being text, every
    candidate ends up either in the counter or as one error signal. *)
Lemma second_pass_errors (w : world) (d : string) (total : nat) (rest : list string) :
  forall i c,
    (forall j, j < List.length rest ->
               exited (ffmpeg_convert w (i + j) (command d (nth j rest ""))) = true) ->
    let p := second_pass w d total rest i c in
    List.length (filter is_error (fst p)) + snd (snd p) = c + List.length rest.
Proof.
  induction rest as [|f rest IH]; intros i c H.
  - cbn. lia.
  - cbv zeta. rewrite second_pass_cons. cbv zeta.
    pose proof (H 0 ltac:(cbn; lia)) as H0. rewrite Nat.add_0_r in H0. cbn [nth] in H0.
    assert (Hr : forall j, j < List.length rest ->
                 exited (ffmpeg_convert w (i + 1 + j) (command d (nth j rest ""))) = true).
    { intros j Hj. replace (i + 1 + j) with (i + S j) by lia.
      apply (H (S j)). cbn. lia. }
    destruct (convert_one_cases w d total i f c)
      as [[t [c' [-> [_ [_ [_ [_ [_ [B _]]]]]]]]]|[[_ N]|[e [_ N]]]];
      [|rewrite N in H0; discriminate H0|rewrite N in H0; discriminate H0].
    cbn [fst snd]. specialize (IH (i + 1) c' Hr). cbv zeta in IH.
    rewrite !filter_app, !length_app. cbn [filter is_error List.length]. lia.
Qed.

(** X6. In a run where the preflight check reports the converter available
    and the conversion of every candidate runs with output that is text (no
    exception but [CalledProcessError] is raised), the error signals and the
    converted count add up to the total: each candidate is either counted as
    converted or reported by exactly one error signal. *)
Theorem errors_and_conversions_add_up (w : world) (directory_path : string)
    (Hpre : snd (_is_ffmpeg_installed w) = Returned true)
    (Hexited : forall i,
        i < List.length (filter is_video (listed w directory_path)) ->
        exited (outcome w directory_path
                  (filter is_video (listed w directory_path)) i) = true) :
  exists l,
    final w directory_path = Some l
    /\ count is_error (trace w directory_path) + converted_count l
       = total_videos l.
Proof.
  unfold trace, count, final.
  destruct (run_cases w directory_path)
    as [[e I]|[I|[I [[e L]|[[l [L F]]|N]]]]]; try congruence.
  - rewrite (run_listdir_raises w directory_path e I L). eexists. split; reflexivity.
  - rewrite (run_empty w directory_path l I L F). eexists. split; reflexivity.
  - rewrite (run_nonempty w directory_path Hpre N). cbv zeta. cbn [fst snd].
    eexists. split; [reflexivity|]. cbn [converted_count total_videos].
    pose proof (second_pass_errors w directory_path
                  (List.length (filter is_video (listed w directory_path)))
                  (filter is_video (listed w directory_path)) 0 0 Hexited) as E.
    cbv zeta in E.
    rewrite !filter_app, !length_app. cbn [filter is_error List.length].
    destruct (fst (snd (second_pass _ _ _ _ 0 0))); cbn [filter is_error List.length];
      lia.
Qed.

Lemma errors_and_conversions_add_up_witness :
  exists l,
    final Scenarios.first_fails "/videos" = Some l
    /\ count is_error (trace Scenarios.first_fails "/videos") + converted_count l
       = total_videos l.
Proof.
  apply (errors_and_conversions_add_up Scenarios.first_fails "/videos").
  - reflexivity.
  - intros [|[|i]] Hi; [reflexivity | reflexivity | simpl in Hi; lia].
Defined.

(** X15. In a run where the preflight check reports the converter available
    and the conversion of every candidate runs with output that is text (no
    exception but [CalledProcessError] is raised), every candidate is handed
    to the converter exactly once, in the order of the listing, whether or
    not earlier conversions exited with a status other than zero. *)
Theorem every_candidate_is_attempted (w : world) (directory_path : string)
    (Hpre : snd (_is_ffmpeg_installed w) = Returned true)
    (Hexited : forall i,
        i < List.length (filter is_video (listed w directory_path)) ->
        exited (outcome w directory_path
                  (filter is_video (listed w directory_path)) i) = true) :
  launched (trace w directory_path)
  = version_command
      :: map (command directory_path) (filter is_video (listed w directory_path)).
Proof.
  unfold trace.
  destruct (run_cases w directory_path)
    as [[e I]|[I|[I [[e L]|[[l [L F]]|N]]]]]; try congruence.
  - rewrite (run_listdir_raises w directory_path e I L),
      (listed_raised w directory_path e L). reflexivity.
  - rewrite (run_empty w directory_path l I L F),
      (listed_returned w directory_path l L), F. reflexivity.
  - rewrite (run_nonempty w directory_path Hpre N). cbv zeta. cbn [fst].
    destruct (second_pass_through w directory_path
                (List.length (filter is_video (listed w directory_path)))
                (filter is_video (listed w directory_path))
                (filter is_video (listed w directory_path)) 0 0 eq_refl)
      as [E1 [_ [E3 _]]].
    { intros j Hj. apply Hexited. lia. }
    rewrite E1. cbn [app launched]. rewrite launched_app, E3. cbn [launched].
    now rewrite app_nil_r.
Qed.

Lemma every_candidate_is_attempted_witness :
  launched (trace Scenarios.first_fails "/videos")
  = version_command
      :: map (command "/videos")
           (filter is_video (listed Scenarios.first_fails "/videos")).
Proof.
  apply (every_candidate_is_attempted Scenarios.first_fails "/videos").
  - reflexivity.
  - intros [|[|i]] Hi; [reflexivity | reflexivity | simpl in Hi; lia].
Defined.

End RunExtra.

(** ** Names: what holds beyond the candidates' output names *)

Module NamingExtra.
Import Py PyFacts OsPath OsPathFacts Worker Candidates.

Lemma append_empty_r (s : string) : (s ++ "")%string = s.
Proof. induction s as [|c s IH]; cbn; [reflexivity | now rewrite IH]. Qed.

(** Two texts that are equal and end in parts of the same length end in the
    same part. *)
Lemma append_inj_suffix (a b c d : string) :
  String.length b = String.length d ->
  (a ++ b)%string = (c ++ d)%string -> b = d.
Proof.
  intros L H. apply (append_inj_length a b c d); [|exact H].
  apply (f_equal String.length) in H. rewrite !length_append in H. lia.
Qed.

Lemma append_inj_l (a b c : string) : (a ++ b)%string = (a ++ c)%string -> b = c.
Proof. intros H. now apply (append_inj_length a b a c). Qed.

Lemma endswith1_false (s e : string) :
  (forall p, s <> (p ++ e)%string) -> endswith1 s e = false.
Proof.
  intros H. destruct (endswith1 s e) eqn:E; [|reflexivity].
  apply endswith1_iff in E as [p E]. now destruct (H p).
Qed.

(** A name that ends in [.gif] is not a video. *)
Lemma gif_is_not_video (s : string) : is_video (s ++ ".gif") = false.
Proof.
  unfold is_video, endswith, video_extensions. rewrite lower_append.
  change (lower ".gif") with ".gif". cbn [existsb].
  repeat rewrite (endswith1_false _ _);
    [reflexivity | intros p H ..];
    try (apply append_inj_suffix in H; [discriminate H | reflexivity]).
  change ".webm" with ("." ++ "webm")%string in H.
  rewrite <- append_assoc in H.
  apply append_inj_suffix in H; [discriminate H | reflexivity].
Qed.

(** X7. The output name of any file is never a candidate: the GIFs a run
    writes are not taken as input, so with them in the listing the first
    pass selects the same candidates and the same total as without. *)
Theorem outputs_are_never_candidates (entries names : list string) :
  (forall f, is_video (output_filename f) = false)
  /\ first_pass (entries ++ map output_filename names) = first_pass entries.
Proof.
  assert (G : forall f, is_video (output_filename f) = false)
    by (intros f; apply gif_is_not_video).
  split; [exact G|].
  rewrite !first_pass_filter, filter_app.
  assert (E : filter is_video (map output_filename names) = []).
  { induction names as [|n names IH]; [reflexivity|].
    cbn [map filter]. now rewrite G. }
  now rewrite E, app_nil_r.
Qed.

(** The output name of a candidate without [/]: the base or the whole name,
    and [.gif]; it has no [/] either. *)
Lemma output_filename_candidate (filename : string) :
  is_video filename = true ->
  contains "/" filename = false ->
  exists base x0,
    filename = (base ++ String "." x0)%string
    /\ contains "." x0 = false
    /\ In (lower (String "." x0)) video_extensions
    /\ output_filename filename
       = ((if all_are "." base then filename else base) ++ ".gif")%string
    /\ contains "/" (output_filename filename) = false.
Proof.
  intros Hvideo Hname.
  destruct (is_video_split filename Hvideo) as [base [x0 [E [I [Hd Hs]]]]].
  assert (O : output_filename filename
              = ((if all_are "." base then filename else base) ++ ".gif")%string).
  { unfold output_filename. rewrite E at 1.
    rewrite splitext_last_dot by (try rewrite <- E; assumption).
    rewrite <- E. now destruct (all_are "." base). }
  exists base, x0. repeat split; try assumption.
  rewrite O, contains_append. apply orb_false_iff. split; [|reflexivity].
  destruct (all_are "." base); [exact Hname|].
  rewrite E, contains_append in Hname. now apply orb_false_iff in Hname.
Qed.

(** X8. For a candidate name without [/], the output path and the input
    path the worker hands to the converter are different texts. *)
Theorem output_path_differs_from_input (directory_path filename : string)
    (Hvideo : is_video filename = true)
    (Hname : contains "/" filename = false) :
  output_path directory_path filename <> input_path directory_path filename.
Proof.
  destruct (output_filename_candidate filename Hvideo Hname)
    as [base [x0 [_ [_ [_ [_ S]]]]]].
  unfold output_path, input_path. rewrite !join_name by assumption.
  intros H. apply append_inj_l in H.
  pose proof (gif_is_not_video (fst (splitext filename))) as G.
  fold (output_filename filename) in G. rewrite H, Hvideo in G. discriminate G.
Qed.

Lemma output_path_differs_from_input_witness :
  output_path "/videos" "clip.MP4" <> input_path "/videos" "clip.MP4".
Proof.
  apply (output_path_differs_from_input "/videos" "clip.MP4"); reflexivity.
Defined.




(** [rfind] below zero: the character does not occur. *)
Lemma rfind_at_negative (c : ascii) (s : string) (i : Z) :
  (0 <= i)%Z -> (rfind_at c s i < 0)%Z -> contains c s = false.
Proof.
  revert i; induction s as [|a s IH]; intros i Hi; cbn [rfind_at contains];
    [reflexivity|].
  destruct (0 <=? rfind_at c s (i + 1))%Z eqn:E.
  - apply Z.leb_le in E. lia.
  - apply Z.leb_gt in E. destruct (a =? c)%char; [lia|].
    intros _. cbn. apply (IH (i + 1)%Z); lia.
Qed.

(** [rfind] at or above zero: there the character stands, and not after. *)
Lemma rfind_at_found (c : ascii) (s : string) (i : Z) :
  (0 <= i)%Z -> (0 <= rfind_at c s i)%Z ->
  exists rest,
    drop (Z.to_nat (rfind_at c s i - i)) s = String c rest
    /\ contains c rest = false.
Proof.
  revert i; induction s as [|a s IH]; intros i Hi; cbn [rfind_at]; [lia|].
  destruct (0 <=? rfind_at c s (i + 1))%Z eqn:E.
  - apply Z.leb_le in E. intros _.
    destruct (rfind_at_range c s (i + 1)) as [R|R]; [lia|].
    destruct (IH (i + 1)%Z ltac:(lia) E) as [rest [D N]].
    exists rest. split; [|exact N].
    replace (Z.to_nat (rfind_at c s (i + 1) - i))
      with (S (Z.to_nat (rfind_at c s (i + 1) - (i + 1)))) by lia.
    exact D.
  - apply Z.leb_gt in E. destruct (a =? c)%char eqn:A; [|lia].
    intros _. apply Ascii.eqb_eq in A. subst a.
    exists s. rewrite Z.sub_diag. split; [reflexivity|].
    apply (rfind_at_negative c s (i + 1)); lia.
Qed.

(** X10. [os.path.splitext] as the worker uses it: root and extension put
    together give the name back, and the extension is empty or a dot
    followed by text without a dot; so an output name is a name with at
    most one dotted suffix taken off, and [.gif] put on. *)
Theorem splitext_root_and_extension (p : string) :
  (fst (splitext p) ++ snd (splitext p))%string = p
  /\ (snd (splitext p) = ""
      \/ exists rest,
           snd (splitext p) = String "." rest /\ contains "." rest = false).
Proof.
  unfold splitext.
  destruct ((rfind p sep <? rfind p extsep)%Z
            && skip_leading_dots p (rfind p sep + 1)
                 (Z.to_nat (rfind p extsep - (rfind p sep + 1)))) eqn:C;
    cbn [fst snd].
  - apply andb_true_iff in C as [C _]. apply Z.ltb_lt in C.
    destruct (rfind_at_range sep p 0) as [R|R]; fold (rfind p sep) in R.
    all: assert (D : (0 <= rfind p extsep)%Z) by lia.
    all: destruct (rfind_at_range extsep p 0) as [Q|Q];
      fold (rfind p extsep) in Q; [lia|].
    all: destruct (rfind_at_found extsep p 0 ltac:(lia) D) as [rest [F N]];
      fold (rfind p extsep) in F; rewrite Z.sub_0_r in F.
    all: assert (B : bound (String.length p) (rfind p extsep)
                     = Z.to_nat (rfind p extsep))
           by (unfold bound;
               destruct (rfind p extsep <? 0)%Z eqn:L;
               [apply Z.ltb_lt in L; lia | lia]).
    all: unfold slice_to, slice_from; rewrite B; split;
      [apply take_drop | right; exists rest; now split].
  - rewrite slice_to_0, append_empty_r. split; [reflexivity | now left].
Qed.

End NamingExtra.

(** ** The shell: what holds in every state it can reach *)

Module ShellExtra.
Import Worker Shell System Observe.

(** Induction over the states the system can reach. *)
Lemma exec_app (w : world) (es1 es2 : list event) (s : system) :
  exec w (es1 ++ es2) s
  = match exec w es1 s with
    | Some s' => exec w es2 s'
    | None => None
    end.
Proof.
  revert s; induction es1 as [|e es1 IH]; intros s; cbn [app exec]; [reflexivity|].
  destruct (step w e s); [apply IH | reflexivity].
Qed.

Lemma reachable_ind (w : world) (P : system -> Prop) :
  P init ->
  (forall e s s', P s -> step w e s = Some s' -> P s') ->
  forall s, reachable w s -> P s.
Proof.
  intros P0 PS s [es R]. revert s R.
  induction es as [|e es IH] using rev_ind; intros s R.
  - cbn in R. injection R as <-. exact P0.
  - rewrite exec_app in R. destruct (exec w es init) as [s1|] eqn:E; [|discriminate].
    cbn [exec] in R. destruct (step w e s1) as [s2|] eqn:S; [|discriminate].
    injection R as <-. exact (PS e s1 s2 (IH s1 eq_refl) S).
Qed.

Lemma step_tidy (w : world) (e : event) (s s' : system) :
  tidy (gui s) -> step w e s = Some s' -> tidy (gui s').
Proof.
  intros [T1 [T2 [T3 T4]]]. destruct e as [d| |n|]; cbn [step].
  - destruct (browse_button (gui s)) eqn:B; [|discriminate].
    intros H; injection H as <-. cbn [gui]. unfold _browse_directory.
    destruct (truthy d) eqn:D; unfold tidy; cbn; rewrite ?B; repeat split;
      try discriminate; auto.
  - destruct (convert_button (gui s)) eqn:C; [|discriminate].
    unfold _start_conversion. rewrite (T1 eq_refl). cbn [negb].
    intros H; injection H as <-. unfold tidy; cbn. repeat split; auto.
  - destruct (nth_error (threads s) n) as [[|a rest]|]; try discriminate.
    intros H; injection H as <-. cbn [gui]. now repeat split.
  - destruct (queue s) as [|sig q]; [discriminate|].
    intros H; injection H as <-. cbn [gui].
    destruct sig as [m|m|m]; unfold tidy; cbn; rewrite ?filter_app, ?T4;
      repeat split; auto; try discriminate;
      destruct (truthy (directory_path (gui s))); auto.
Qed.

Lemma reachable_tidy (w : world) (s : system) : reachable w s -> tidy (gui s).
Proof.
  revert s. apply (reachable_ind w (fun s => tidy (gui s))).
  - unfold tidy. cbn. repeat split; discriminate.
  - intros e s0 s1 T S. exact (step_tidy w e s0 s1 T S).
Qed.

(** X11. In every state the shell can reach: the convert button is disabled
    when no directory is stored, the path display shows the stored
    directory, and the convert button is disabled whenever the browse
    button is. *)
Theorem reachable_shell_is_consistent (w : world) (s : system)
    (Hreach : reachable w s) :
  (directory_path (gui s) = "" -> convert_button (gui s) = false)
  /\ path_display (gui s) = directory_path (gui s)
  /\ (browse_button (gui s) = false -> convert_button (gui s) = false).
Proof.
  destruct (reachable_tidy w s Hreach) as [T1 [T2 [T3 _]]].
  repeat split; [|exact T2|exact T3].
  intros D. destruct (convert_button (gui s)); [|reflexivity].
  specialize (T1 eq_refl). rewrite D in T1. discriminate T1.
Qed.

Lemma reachable_shell_is_consistent_witness :
  let s := {| gui := _browse_directory "" (_browse_directory "/videos" Shell.init);
              threads := []; queue := [] |} in
  (directory_path (gui s) = "" -> convert_button (gui s) = false)
  /\ path_display (gui s) = directory_path (gui s)
  /\ (browse_button (gui s) = false -> convert_button (gui s) = false).
Proof.
  apply (reachable_shell_is_consistent Scenarios.one_video).
  exists [Browse "/videos"; Browse ""]. reflexivity.
Defined.

(** X12. The warning box of [_start_conversion] is never shown: in every
    state the shell can reach no warning has been shown, and a click on the
    convert button that the state accepts starts one worker, for the stored
    directory, with both buttons disabled. *)
Theorem start_always_starts_a_worker (w : world) (s : system)
    (Hreach : reachable w s) :
  filter is_warning (dialogs (gui s)) = []
  /\ forall s',
       step w Start s = Some s' ->
       threads s' = threads s ++ [trace w (directory_path (gui s))]
       /\ worker_thread (gui s') = Some (directory_path (gui s))
       /\ browse_button (gui s') = false
       /\ convert_button (gui s') = false.
Proof.
  destruct (reachable_tidy w s Hreach) as [T1 [_ [_ T4]]]. split; [exact T4|].
  intros s'. cbn [step].
  destruct (convert_button (gui s)) eqn:C; [|discriminate].
  unfold _start_conversion. rewrite (T1 eq_refl). cbn [negb].
  intros H; injection H as <-. now repeat split.
Qed.

Lemma start_always_starts_a_worker_witness :
  let w := Scenarios.one_video in
  let s := {| gui := _browse_directory "/videos" Shell.init;
              threads := []; queue := [] |} in
  filter is_warning (dialogs (gui s)) = []
  /\ forall s',
       step w Start s = Some s' ->
       threads s' = threads s ++ [trace w (directory_path (gui s))]
       /\ worker_thread (gui s') = Some (directory_path (gui s))
       /\ browse_button (gui s') = false
       /\ convert_button (gui s') = false.
Proof.
  apply (start_always_starts_a_worker Scenarios.one_video).
  exists [Browse "/videos"]. reflexivity.
Defined.

(** *** A whole run *)

Lemma nth_error_last {A : Type} (pre : list A) (t : A) :
  nth_error (pre ++ [t]) (List.length pre) = Some t.
Proof. induction pre as [|x pre IH]; [reflexivity | exact IH]. Qed.

Lemma set_nth_last {A : Type} (pre : list A) (t r : A) :
  set_nth (List.length pre) r (pre ++ [t]) = pre ++ [r].
Proof. induction pre as [|x pre IH]; cbn; [reflexivity | now rewrite IH]. Qed.

(** The worker at the end of the list of threads does all it has to do. *)
Lemma work_all (w : world) (g : shell) (pre : list (list action)) :
  forall t q,
    exec w (repeat (Work (List.length pre)) (List.length t))
      {| gui := g; threads := pre ++ [t]; queue := q |}
    = Some {| gui := g; threads := pre ++ [[]]; queue := q ++ signals t |}.
Proof.
  induction t as [|a t IH]; intros q.
  - cbn. now rewrite app_nil_r.
  - cbn [List.length repeat exec step threads gui queue].
    rewrite nth_error_last, set_nth_last, IH, <- app_assoc.
    now destruct a.
Qed.

(** The event loop empties the queue. *)
Lemma deliver_all (w : world) (ts : list (list action)) :
  forall q g,
    exec w (repeat Deliver (List.length q))
      {| gui := g; threads := ts; queue := q |}
    = Some {| gui := handle q g; threads := ts; queue := [] |}.
Proof.
  induction q as [|x q IH]; intros g; [reflexivity|].
  cbn [List.length repeat exec step queue gui threads]. apply IH.
Qed.

(** What handling signals does to the shell. *)
Lemma handle_app (a b : list signal) (g : shell) :
  handle (a ++ b) g = handle b (handle a g).
Proof. unfold handle. apply fold_left_app. Qed.

Lemma handle_keeps (q : list signal) :
  forall g,
    directory_path (handle q g) = directory_path g
    /\ log_output (handle q g) = log_output g ++ map log_line q
    /\ List.length (dialogs (handle q g))
       = List.length (dialogs g) + List.length (filter is_terminal q).
Proof.
  induction q as [|x q IH]; intros g.
  - cbn. rewrite app_nil_r. repeat split. lia.
  - change (handle (x :: q) g) with (handle q (slot x g)).
    destruct (IH (slot x g)) as [D [L N]]. rewrite D, L, N.
    destruct x as [m|m|m]; cbn; rewrite <- ?app_assoc, ?length_app; cbn;
      repeat split; lia.
Qed.

Lemma terminal_slot_enables (x : signal) (g : shell) :
  is_terminal x = true ->
  truthy (directory_path g) = true ->
  browse_button (slot x g) = true /\ convert_button (slot x g) = true.
Proof.
  destruct x as [m|m|m]; [discriminate| |]; intros _ D; cbn; now rewrite D.
Qed.

(** X13. A whole run with nothing else happening, for a run that no
    exception leaves (the version query, the listing and every conversion
    return or raise what the worker handles): from a state with the convert
    button enabled, a directory stored and no signal waiting, the click
    starts one worker; once it has done all its actions and the shell has
    handled all its signals, both buttons are enabled again, the directory
    is still stored, the log holds the start line followed by one line for
    each signal of the run in the order of emission, and one box was shown
    for each terminal signal. *)
Theorem whole_run_returns_to_ready (w : world) (s : system)
    (Hbutton : convert_button (gui s) = true)
    (Hdir : truthy (directory_path (gui s)) = true)
    (Hqueue : queue s = [])
    (Hends : forall e, ended w (directory_path (gui s)) <> Raise e) :
  let d := directory_path (gui s) in
  let t := trace w d in
  exists s',
    exec w (whole_run (List.length (threads s)) t) s = Some s'
    /\ threads s' = threads s ++ [[]]
    /\ queue s' = []
    /\ directory_path (gui s') = d
    /\ browse_button (gui s') = true
    /\ convert_button (gui s') = true
    /\ log_output (gui s')
       = "Starting video conversion process..." :: map log_line (signals t)
    /\ List.length (dialogs (gui s'))
       = List.length (dialogs (gui s)) + List.length (filter is_terminal (signals t)).
Proof.
  intros d t. unfold whole_run. cbn [exec step]. rewrite Hbutton.
  unfold _start_conversion. rewrite Hdir. cbn [negb]. fold d. fold t.
  rewrite exec_app, Hqueue, work_all. cbn [app]. rewrite deliver_all.
  eexists. split; [reflexivity|]. cbn [gui threads queue].
  set (g := {| directory_path := d; worker_thread := Some d;
               path_display := path_display (gui s); browse_button := false;
               convert_button := false;
               log_output := ["Starting video conversion process..."];
               status_label := "Conversion in progress...";
               dialogs := dialogs (gui s) |}).
  destruct (handle_keeps (signals t) g) as [D [L N]].
  repeat split; try assumption.
  - destruct (RunExtra.trace_last_terminal w d Hends) as [t0 [x [T X]]].
    fold t in T. rewrite T, RunExtra.signals_app, handle_app. cbn [signals handle fold_left].
    apply terminal_slot_enables; [exact X|].
    destruct (handle_keeps (signals t0) g) as [D0 _]. now rewrite D0.
  - destruct (RunExtra.trace_last_terminal w d Hends) as [t0 [x [T X]]].
    fold t in T. rewrite T, RunExtra.signals_app, handle_app. cbn [signals handle fold_left].
    apply terminal_slot_enables; [exact X|].
    destruct (handle_keeps (signals t0) g) as [D0 _]. now rewrite D0.
Qed.

Lemma whole_run_returns_to_ready_witness :
  let w := Scenarios.first_fails in
  let s := {| gui := _browse_directory "/videos" Shell.init;
              threads := []; queue := [] |} in
  let d := directory_path (gui s) in
  let t := trace w d in
  exists s',
    exec w (whole_run (List.length (threads s)) t) s = Some s'
    /\ threads s' = threads s ++ [[]]
    /\ queue s' = []
    /\ directory_path (gui s') = d
    /\ browse_button (gui s') = true
    /\ convert_button (gui s') = true
    /\ log_output (gui s')
       = "Starting video conversion process..." :: map log_line (signals t)
    /\ List.length (dialogs (gui s'))
       = List.length (dialogs (gui s)) + List.length (filter is_terminal (signals t)).
Proof.
  apply (whole_run_returns_to_ready Scenarios.first_fails
           {| gui := _browse_directory "/videos" Shell.init;
              threads := []; queue := [] |}); try reflexivity.
  intros e. discriminate.
Defined.

(** *** One worker at a time, when no file fails *)

Lemma concat_nil_active (ts : list (list action)) :
  concat ts = [] -> List.length (filter is_active ts) = 0.
Proof.
  induction ts as [|t ts IH]; cbn [concat filter]; [reflexivity|].
  intros H. apply app_eq_nil in H as [-> H]. cbn. now apply IH.
Qed.

Lemma active_zero_concat (ts : list (list action)) :
  List.length (filter is_active ts) = 0 -> concat ts = [].
Proof.
  induction ts as [|t ts IH]; cbn [concat filter]; [reflexivity|].
  destruct t as [|a t]; cbn [is_active]; [exact IH | discriminate].
Qed.

Lemma quiet_no_work (ts : list (list action)) (n : nat) (t : list action) :
  concat ts = [] -> nth_error ts n = Some t -> t = [].
Proof.
  revert n; induction ts as [|t0 ts IH]; intros n H; cbn [concat] in H.
  - now destruct n.
  - apply app_eq_nil in H as [-> H]. destruct n as [|n]; cbn [nth_error].
    + now intros [= <-].
    + now apply IH.
Qed.

(** With at most one worker active, the one that works is the only one with
    something left to do. *)
Lemma pick_thread (ts : list (list action)) :
  forall n a rest,
    List.length (filter is_active ts) <= 1 ->
    nth_error ts n = Some (a :: rest) ->
    concat ts = a :: rest
    /\ concat (set_nth n rest ts) = rest
    /\ List.length (filter is_active (set_nth n rest ts)) <= 1.
Proof.
  induction ts as [|t0 ts IH]; intros n a rest A H; [now destruct n|].
  destruct n as [|n]; cbn [nth_error] in H.
  - injection H as ->. cbn [filter is_active List.length] in A.
    assert (Z : List.length (filter is_active ts) = 0) by lia.
    cbn [set_nth concat filter]. rewrite (active_zero_concat ts Z), !app_nil_r.
    repeat split. destruct (is_active rest); cbn [List.length]; lia.
  - destruct t0 as [|x t0].
    + cbn [filter is_active] in A. destruct (IH n a rest A H) as [C1 [C2 C3]].
      cbn [set_nth concat filter is_active app]. now repeat split.
    + cbn [filter is_active List.length] in A.
      assert (Z : List.length (filter is_active ts) = 0) by lia.
      pose proof (quiet_no_work ts n _ (active_zero_concat ts Z) H) as E.
      discriminate E.
Qed.

Lemma signals_cons (a : action) (t : list action) :
  emitted a ++ signals t = signals (a :: t).
Proof. now destruct a. Qed.

(** Between runs or during one: every event keeps it so, when no file
    fails. *)
Lemma step_phase (w : world) (e : event) (s s' : system) :
  no_file_fails w ->
  tidy (gui s) ->
  quiet s \/ running s ->
  step w e s = Some s' ->
  quiet s' \/ running s'.
Proof.
  intros NF [T1 _] Ph. destruct e as [d| |n|]; cbn [step].
  - destruct (browse_button (gui s)) eqn:B; [|discriminate].
    intros H; injection H as <-.
    destruct Ph as [Q|[B1 _]]; [left; exact Q | congruence].
  - destruct (convert_button (gui s)) eqn:C; [|discriminate].
    destruct Ph as [[Q1 Q2]|[_ [B2 _]]]; [|congruence].
    unfold _start_conversion. rewrite (T1 eq_refl). cbn [negb].
    intros H; injection H as <-. right.
    assert (K : concat (threads s ++ [trace w (directory_path (gui s))])
                = trace w (directory_path (gui s))).
    { rewrite concat_app, Q2. cbn [concat app]. now rewrite app_nil_r. }
    unfold running, pending, active. cbn [gui threads queue].
    rewrite K, Q1, filter_app, length_app, (concat_nil_active _ Q2).
    repeat split.
    + cbn [filter]. destruct (is_active _); cbn [List.length]; lia.
    + destruct (RunExtra.trace_clean w (directory_path (gui s)) NF)
        as [[r [x [T [X F]]]]|F].
      * exists (signals r). split; [exact F|]. right. exists x.
        rewrite T, RunExtra.signals_app. repeat split; [exact X|].
        right. now exists r, x.
      * exists (signals (trace w (directory_path (gui s)))).
        split; [exact F|]. now left.
  - destruct (nth_error (threads s) n) as [[|a rest]|] eqn:N; try discriminate.
    intros H; injection H as <-.
    destruct Ph as [[_ Q2]|[B1 [B2 [A [q [F P]]]]]].
    { pose proof (quiet_no_work _ _ _ Q2 N) as E. discriminate E. }
    right. destruct (pick_thread _ _ _ _ A N) as [C1 [C2 C3]].
    unfold running, pending, active in *. cbn [gui threads queue].
    rewrite C2. rewrite C1 in P. repeat split; try assumption.
    exists q. split; [exact F|].
    rewrite <- app_assoc, signals_cons.
    destruct P as [P|[x [P [X L]]]]; [now left|].
    right. exists x. repeat split; try assumption.
    destruct L as [L|[r [x0 L]]]; [discriminate L|].
    destruct r as [|y r]; cbn [app] in L; injection L as _ L.
    + now left.
    + right. now exists r, x0.
  - destruct (queue s) as [|sig q0] eqn:Q; [discriminate|].
    intros H; injection H as <-.
    destruct Ph as [[Q1 _]|[B1 [B2 [A [q [F P]]]]]].
    { rewrite Q in Q1. discriminate Q1. }
    unfold pending in P. rewrite Q in P. cbn [app] in P.
    destruct P as [P|[x [P [X L]]]].
    + right. destruct q as [|y q]; [discriminate P|]. injection P as -> P.
      cbn [forallb] in F. apply andb_true_iff in F as [Y F].
      destruct y as [m|m|m]; try discriminate Y.
      unfold running, pending, active in *. cbn [gui threads queue slot].
      repeat split; try assumption. exists q. split; [exact F | now left].
    + destruct q as [|y q]; cbn [app] in P; injection P as -> P.
      * left. apply app_eq_nil in P as [-> P]. split; [reflexivity|].
        cbn [threads]. destruct L as [L|[r [x0 L]]]; [exact L|].
        rewrite L, RunExtra.signals_app in P. cbn in P.
        now apply app_eq_nil in P as [_ P].
      * right. cbn [forallb] in F. apply andb_true_iff in F as [Y F].
        destruct y as [m|m|m]; try discriminate Y.
        unfold running, pending, active in *. cbn [gui threads queue slot].
        repeat split; try assumption. exists q. split; [exact F|].
        right. exists x. now repeat split.
Qed.

Lemma reachable_phase (w : world) (s : system) :
  no_file_fails w -> reachable w s -> tidy (gui s) /\ (quiet s \/ running s).
Proof.
  intros NF. revert s.
  apply (reachable_ind w (fun s => tidy (gui s) /\ (quiet s \/ running s))).
  - split; [|left; now split]. unfold tidy. cbn. repeat split; discriminate.
  - intros e s0 s1 [T Ph] S. split.
    + exact (step_tidy w e s0 s1 T S).
    + exact (step_phase w e s0 s1 NF T Ph S).
Qed.

(** X14. When no conversion exits with a status other than zero, every
    state the system can reach has at most one active worker, and as long
    as a worker is active or one of its signals is still to be handled, the
    browse button and the convert button are both disabled. *)
Theorem one_worker_when_no_file_fails (w : world) (s : system)
    (Hclean : no_file_fails w)
    (Hreach : reachable w s) :
  active s <= 1
  /\ (1 <= active s \/ pending s <> [] ->
      browse_button (gui s) = false /\ convert_button (gui s) = false).
Proof.
  destruct (reachable_phase w s Hclean Hreach) as [_ [[Q1 Q2]|R]].
  - unfold active, pending. rewrite (concat_nil_active _ Q2), Q1, Q2.
    split; [lia|]. cbn. intros [H|H]; [lia | contradiction].
  - destruct R as [B1 [B2 [A _]]]. split; [exact A|]. intros _. now split.
Qed.

Lemma one_worker_when_no_file_fails_witness :
  let w := Scenarios.one_video in
  let s := {| gui := fst (_start_conversion (_browse_directory "/videos" Shell.init));
              threads := [skipn 3 (trace w "/videos")];
              queue := [progress_update "Found 1 video(s). Starting conversion..."] |} in
  active s <= 1
  /\ (1 <= active s \/ pending s <> [] ->
      browse_button (gui s) = false /\ convert_button (gui s) = false).
Proof.
  apply (one_worker_when_no_file_fails Scenarios.one_video).
  - intros i c rc out err H. injection H as <- _ _. reflexivity.
  - exists [Browse "/videos"; Start; Work 0; Work 0; Work 0]. reflexivity.
Defined.

End ShellExtra.
